(** * Gradle plugin: inference of project nodes and targets

    A shallow embedding of the Gradle project-graph plugin
    ([createNodes], [createGradleTargets], [createInputsMap] and the
    two target caches) together with the properties its specification
    states about it.

    JavaScript objects that the plugin indexes with strings taken from
    the build report are modelled with their own properties in a
    [gmap] and with the properties every object literal inherits from
    [Object.prototype] written out: a read [o[k]] that finds no own
    property falls back on the prototype, and the assignment
    [o["__proto__"] = v] replaces the prototype instead of creating an
    own property. *)

From stdpp Require Import base option list strings gmap fin_maps.

Local Open Scope string_scope.
Local Open Scope list_scope.

(** ** Exceptions *)

(** A [TypeError] is raised by the language itself (a method called on
    [undefined], a non-function called); [Thrown] is whatever a
    collaborator of the plugin throws. *)
Inductive exn : Type :=
  | TypeError (msg : string)
  | Thrown (msg : string).

Inductive result (A : Type) : Type :=
  | Ok (a : A)
  | Throw (e : exn).
Arguments Ok {A} a.
Arguments Throw {A} e.

(** The error monad, with stdpp's [x ← r; k] notation. *)
#[global] Instance result_ret : MRet result := λ A a, Ok a.
#[global] Instance result_bind : MBind result := λ A B k r,
  match r with
  | Ok a => k a
  | Throw e => Throw e
  end.

(** A [for ... of] loop whose body may throw: the first exception
    leaves the loop. *)
Fixpoint for_of {A S : Type} (body : S → A → result S) (xs : list A) (s : S)
  : result S :=
  match xs with
  | [] => Ok s
  | x :: xs' => s' ← body s x; for_of body xs' s'
  end.

(** ** JavaScript objects used as string-keyed maps *)

Module Js.

(** The properties of [Object.prototype]: every object literal
    inherits them. *)
Definition ObjectPrototype : list string :=
  [ "constructor"; "__defineGetter__"; "__defineSetter__";
    "hasOwnProperty"; "__lookupGetter__"; "__lookupSetter__";
    "isPrototypeOf"; "propertyIsEnumerable"; "toString"; "valueOf";
    "__proto__"; "toLocaleString" ].

Definition inherited (k : string) : bool :=
  bool_decide (k ∈ ObjectPrototype).

(** The value of a read [o[k]]: an own property, a member of
    [Object.prototype] reached through the prototype chain, or
    [undefined]. *)
Inductive value (A : Type) : Type :=
  | Own (a : A)
  | Inherited (k : string)
  | Undefined.
Arguments Own {A} a.
Arguments Inherited {A} k.
Arguments Undefined {A}.

(** [o[k]] on an object whose prototype is [Object.prototype]. *)
Definition get {A : Type} (o : gmap string A) (k : string) : value A :=
  match o !! k with
  | Some a => Own a
  | None => if inherited k then Inherited k else Undefined
  end.

(** An object that is assigned to under arbitrary keys. [props] are
    its own properties; [proto] is [None] while the prototype is
    still [Object.prototype] and [Some v] once an assignment to
    [__proto__] has replaced it by the object [v]. *)
Record object (A : Type) : Type := Object {
  props : gmap string A;
  proto : option A;
}.
Arguments Object {A} props proto.
Arguments props {A} o.
Arguments proto {A} o.

(** The object literal [{}]. *)
Definition empty {A : Type} : object A := Object ∅ None.

(** [o[k] = v] for an object [v]: the inherited [__proto__] setter
    swaps the prototype, every other key becomes an own property. *)
Definition set {A : Type} (o : object A) (k : string) (v : A) : object A :=
  if decide (k = "__proto__")
  then Object (props o) (Some v)
  else Object (<[k := v]> (props o)) (proto o).

(** What was last assigned under [k], which is what [o[k]] reads
    back afterwards. *)
Definition assigned {A : Type} (o : object A) (k : string) : option A :=
  if decide (k = "__proto__") then proto o else props o !! k.

(** Truthiness of a string: only the empty string is falsy. *)
Definition truthy (s : string) : bool :=
  match s with
  | EmptyString => false
  | String _ _ => true
  end.

(** [m.get(k)] on a [Map] that a cast may have left [undefined]. *)
Definition Map_get {V : Type} (m : option (gmap string V)) (k : string)
  : result (option V) :=
  match m with
  | Some m => Ok (m !! k)
  | None => Throw (TypeError "Cannot read properties of undefined (reading 'get')")
  end.

(** [Object.keys(o)]: own properties only, so what a JSON document
    of [o] holds. *)
Definition keys {A : Type} (o : object A) : gset string := dom (props o).

End Js.

(** ** Data model *)

Module GradleTask.
Record t : Type := Build { type : string; name : string }.
End GradleTask.
Abbreviation GradleTask := GradleTask.t.

(** [GradlePluginOptions]: [o !! k] is [None] exactly when [options[k]]
    is [undefined]. The plugin's options argument may itself be
    [undefined]. *)
Definition GradlePluginOptions : Type := gmap string string.

Record TargetOptions : Type := {
  cwd : string;
}.

Record TargetConfiguration : Type := {
  command : string;
  options : TargetOptions;
  cache : bool;
  inputs : Js.value (list string);
  outputs : option (list string);
  dependsOn : Js.value (list string);
}.

Record NxJsonConfiguration : Type := {
  namedInputs : option (gmap string (list string));
}.

Record CreateNodesContext : Type := {
  nxJsonConfiguration : NxJsonConfiguration;
  workspaceRoot : string;
}.

(** The digest [calculateHashForCreateNodes] returns: a number, which
    the source carries as a string of digits. Such a string names no
    member of [Object.prototype], so [targetsCache[hash]] and
    [calculatedTargets[hash] = ...] only ever touch own properties and
    the two caches are plain maps from digests. *)
Definition Hash : Type := N.

(** What the caches hold for one hash. *)
Module ProjectTargets.
Record t : Type := Build {
  name : string;
  targets : Js.object TargetConfiguration;
  targetGroups : gmap string (list string);
}.
End ProjectTargets.
Abbreviation ProjectTargets := ProjectTargets.t.

Record Metadata : Type := {
  technologies : list string;
}.

(** The project descriptor handed back to the host. An object spread
    copies every own property of its operand, so the descriptor may
    carry a [targetGroups] property; [fields] lists the properties it
    has. *)
Module ProjectConfiguration.
Record t : Type := Build {
  name : string;
  targets : Js.object TargetConfiguration;
  targetGroups : option (gmap string (list string));
  metadata : Metadata;
}.

Definition fields (p : t) : list string :=
  ["name"; "targets"]
  ++ match targetGroups p with
     | Some _ => ["targetGroups"]
     | None => []
     end
  ++ ["metadata"].
End ProjectConfiguration.
Abbreviation ProjectConfiguration := ProjectConfiguration.t.

(** The value of [createNodes]: [{ projects: { [projectRoot]: project } }],
    the empty object [{}], or [undefined]. *)
Inductive CreateNodesResult : Type :=
  | Projects (projectRoot : string) (project : ProjectConfiguration)
  | EmptyObject
  | NoResult.

(** The report of [getGradleReport]. A [Map] that is only looked up is
    a [gmap]; the inner task map is iterated, so it is the list of its
    entries, task name first, in insertion order. *)
Record GradleReport : Type := {
  gradleProjectToTasksTypeMap : gmap string (list (string * string));
  gradleFileToOutputDirsMap : gmap string (gmap string string);
  gradleFileToGradleProjectMap : gmap string string;
  gradleProjectToProjectName : gmap string string;
}.

(** The mutable state [createNodes] works on: the exported
    [calculatedTargets], what [console.error] has printed, and how
    often [getGradleReport] has been called. *)
Record State : Type := {
  calculatedTargets : gmap Hash ProjectTargets;
  console : list exn;
  reportCalls : nat;
}.

(** ** Fixed tables *)

Definition cacheableTaskType : gset string := {[ "Build"; "Verification" ]}.

Definition dependsOnMap : gmap string (list string) :=
  list_to_map
    [ ("build", ["^build"; "classes"]);
      ("test", ["classes"]);
      ("classes", ["^classes"]) ].

(** [namedInputs?.production] is an array when it is defined, hence
    truthy. *)
Definition production (context : CreateNodesContext) : bool :=
  match namedInputs (nxJsonConfiguration context) with
  | Some presets => bool_decide (is_Some (presets !! "production"))
  | None => false
  end.

Definition createInputsMap (context : CreateNodesContext)
  : gmap string (list string) :=
  list_to_map
    [ ("build", if production context
                then ["production"; "^production"]
                else ["default"; "^default"]);
      ("test", ["default";
                if production context then "^production" else "^default"]);
      ("classes", ["default"; "^default"]) ].

(** ** Target Rule Engine *)

(** The one-character string holding a backslash (code 92). *)
Definition backslash : string := String (Ascii.ascii_of_nat 92) EmptyString.

Abbreviation Targets := (Js.object TargetConfiguration).
Abbreviation TargetGroups := (gmap string (list string)).

(** [options?.[`${task.name}TargetName`] ?? task.name]. The key ends in
    [TargetName], which no member of [Object.prototype] does
    ([TargetName_not_inherited]): the read is a read of own
    properties. *)
Definition targetName (options : option GradlePluginOptions) (task : GradleTask)
  : string :=
  default (GradleTask.name task)
          (options ≫= (.!! (GradleTask.name task +:+ "TargetName"))).

(** The object literal stored in [targets[targetName]]. [outputs] is
    [outputDirs.get(task.name)]. *)
Definition gradleTarget (path gradleFile : string)
    (inputsMap : gmap string (list string)) (outputs : option string)
    (task : GradleTask) : TargetConfiguration :=
  {| command := path +:+ gradleFile +:+ " " +:+ GradleTask.name task;
     options := {| cwd := "{projectRoot}" |};
     cache := bool_decide (GradleTask.type task ∈ cacheableTaskType);
     inputs := Js.get inputsMap (GradleTask.name task);
     outputs := match outputs with
                | Some dir => if Js.truthy dir then Some [dir] else None
                | None => None
                end;
     dependsOn := Js.get dependsOnMap (GradleTask.name task) |}.

(** [if (!targetGroups[task.type]) targetGroups[task.type] = [];
     targetGroups[task.type].push(task.name)].  A type that names a
    member of [Object.prototype] reads as that member, which is truthy
    and has no [push]. *)
Definition pushTargetGroup (targetGroups : TargetGroups) (task : GradleTask)
  : result TargetGroups :=
  let targetGroups :=
    match Js.get targetGroups (GradleTask.type task) with
    | Js.Undefined => <[GradleTask.type task := []]> targetGroups
    | _ => targetGroups
    end in
  match Js.get targetGroups (GradleTask.type task) with
  | Js.Own names =>
      Ok (<[GradleTask.type task := names ++ [GradleTask.name task]]> targetGroups)
  | _ => Throw (TypeError "targetGroups[task.type].push is not a function")
  end.

(** *** Collaborators

    What the plugin imports: [offsetFromRoot] of [@nx/devkit],
    [normalize] and [dirname] of [node:path] ([normalize] yields [None]
    for a nullish result, the case [??=] provides for),
    [process.platform], [getGradleBinaryPath] (the [gradleFile] of its
    result, or the exception it throws), [calculateHashForCreateNodes]
    and [getGradleReport]. *)
Record Collaborators : Type := {
  offsetFromRoot : string → string;
  normalize : string → option string;
  dirname : string → string;
  platform : string;
  getGradleBinaryPath : unit → result string;
  calculateHashForCreateNodes :
    string → GradlePluginOptions → CreateNodesContext → result Hash;
  getGradleReport : unit → result GradleReport;
}.

(** [path] of [createGradleTargets]:
    [normalize(offsetFromRoot(projectRoot))], with [??=] for a nullish
    result. *)
Definition gradlePath (env : Collaborators) (projectRoot : string) : string :=
  default (if String.prefix "win" (platform env) then "." +:+ backslash else "./")
          (normalize env (offsetFromRoot env projectRoot)).

Section Plugin.

Variable env : Collaborators.

(** One iteration of the loop of [createGradleTargets]. *)
Definition createGradleTargets_body
    (inputsMap : gmap string (list string)) (projectRoot : string)
    (options : option GradlePluginOptions)
    (outputDirs : option (gmap string string))
    (acc : Targets * TargetGroups) (task : GradleTask)
  : result (Targets * TargetGroups) :=
  let '(targets, targetGroups) := acc in
  let targetName := targetName options task in
  outputs ← Js.Map_get outputDirs (GradleTask.name task);
  let path := gradlePath env projectRoot in
  gradleFile ← getGradleBinaryPath env ();
  let targets :=
    Js.set targets targetName
           (gradleTarget path gradleFile inputsMap outputs task) in
  targetGroups ← pushTargetGroup targetGroups task;
  Ok (targets, targetGroups).

Definition createGradleTargets (tasks : list GradleTask)
    (projectRoot : string) (options : option GradlePluginOptions)
    (context : CreateNodesContext)
    (outputDirs : option (gmap string string))
  : result (Targets * TargetGroups) :=
  let inputsMap := createInputsMap context in
  for_of (createGradleTargets_body inputsMap projectRoot options outputDirs)
         tasks (Js.empty, ∅).

(** *** Targets cache *)

(** [targetsCache], read once when the module is loaded. *)
Variable targetsCache : gmap Hash ProjectTargets.

(** *** Node Emitter *)

(** The block guarded by [try]. *)
Definition createNodes_try (gradleFilePath projectRoot : string) (hash : Hash)
    (options : option GradlePluginOptions) (context : CreateNodesContext)
    (s : State) : result CreateNodesResult * State :=
  let s := {| calculatedTargets := calculatedTargets s;
              console := console s;
              reportCalls := S (reportCalls s) |} in
  match getGradleReport env () with
  | Throw e => (Throw e, s)
  | Ok report =>
    let gradleProject := gradleFileToGradleProjectMap report !! gradleFilePath in
    let projectName := gradleProject ≫= (gradleProjectToProjectName report !!.) in
    match projectName with
    | None | Some EmptyString => (Ok NoResult, s)
    | Some projectName =>
      let tasksTypeMap := gradleProject ≫= (gradleProjectToTasksTypeMap report !!.) in
      let outputDirs := gradleFileToOutputDirsMap report !! gradleFilePath in
      match
        entries ← match tasksTypeMap with
                  | Some m => Ok m
                  | None => Throw (TypeError "Cannot read properties of undefined (reading 'entries')")
                  end;
        let tasks := (λ '(taskName, taskType), GradleTask.Build taskType taskName) <$> entries in
        createGradleTargets tasks projectRoot options context outputDirs
      with
      | Throw e => (Throw e, s)
      | Ok (targets, targetGroups) =>
        (Ok (Projects projectRoot
               (ProjectConfiguration.Build projectName targets None
                  {| technologies := ["gradle"] |})),
         {| calculatedTargets :=
              <[hash := ProjectTargets.Build projectName targets targetGroups]>
                (calculatedTargets s);
            console := console s;
            reportCalls := reportCalls s |})
      end
    end
  end.

Definition createNodes (gradleFilePath : string)
    (options : option GradlePluginOptions) (context : CreateNodesContext)
    (s : State) : result CreateNodesResult * State :=
  let projectRoot := dirname env gradleFilePath in
  match calculateHashForCreateNodes env projectRoot (default ∅ options) context with
  | Throw e => (Throw e, s)
  | Ok hash =>
    match targetsCache !! hash with
    | Some cached =>
      (Ok (Projects projectRoot
             (ProjectConfiguration.Build
                (ProjectTargets.name cached)
                (ProjectTargets.targets cached)
                (Some (ProjectTargets.targetGroups cached))
                {| technologies := ["gradle"] |})),
       {| calculatedTargets := <[hash := cached]> (calculatedTargets s);
          console := console s;
          reportCalls := reportCalls s |})
    | None =>
      match createNodes_try gradleFilePath projectRoot hash options context s with
      | (Ok r, s') => (Ok r, s')
      | (Throw e, s') =>
        (Ok EmptyObject,
         {| calculatedTargets := calculatedTargets s';
            console := console s' ++ [e];
            reportCalls := reportCalls s' |})
      end
    end
  end.

(** The host calls [createNodes] once per matching build file. *)
Fixpoint createNodesForFiles (files : list string)
    (options : option GradlePluginOptions) (context : CreateNodesContext)
    (s : State) : list (result CreateNodesResult) * State :=
  match files with
  | [] => ([], s)
  | f :: files' =>
    let '(r, s') := createNodes f options context s in
    let '(rs, s'') := createNodesForFiles files' options context s' in
    (r :: rs, s'')
  end.

End Plugin.

(** *** Cache persistence

    [writeJsonFile] writes [JSON.stringify] of its argument to the
    file and [readJsonFile] returns [JSON.parse] of the file. A
    document is given by the value [JSON.parse] makes of it, so what a
    bundle becomes on its way through the file is [Json.roundTrip]. *)

Module Json.

(** What is read back of a written [inputs] or [dependsOn]. An array
    of strings is written as it is. A property whose value is
    [undefined] or a function is not written, and eleven of the twelve
    members of [Object.prototype] are functions. The twelfth,
    [__proto__], reads as the prototype object itself, which has no
    enumerable property of its own: it is written as [{}] and read back
    as an object that has none either, for which the same value
    stands. *)
Definition value {A : Type} (v : Js.value A) : Js.value A :=
  match v with
  | Js.Own a => Js.Own a
  | Js.Inherited k =>
      if decide (k = "__proto__") then Js.Inherited k else Js.Undefined
  | Js.Undefined => Js.Undefined
  end.

Definition target (t : TargetConfiguration) : TargetConfiguration :=
  {| command := command t;
     options := options t;
     cache := cache t;
     inputs := value (inputs t);
     outputs := outputs t;
     dependsOn := value (dependsOn t) |}.

(** Only own properties are written: a prototype that an assignment
    to [__proto__] has put in place is not, and what is read back has
    [Object.prototype] again. *)
Definition object (o : Js.object TargetConfiguration)
  : Js.object TargetConfiguration :=
  Js.Object (target <$> Js.props o) None.

(** [JSON.parse(JSON.stringify(bundle))] *)
Definition roundTrip (bundle : ProjectTargets) : ProjectTargets :=
  ProjectTargets.Build (ProjectTargets.name bundle)
                       (object (ProjectTargets.targets bundle))
                       (ProjectTargets.targetGroups bundle).

End Json.

(** The document at [cachePath], [None] while the file does not
    exist. *)
Abbreviation CacheFile := (option (gmap Hash ProjectTargets)).

Definition readTargetsCache (document : gmap Hash ProjectTargets)
  : gmap Hash ProjectTargets := document.

(** [existsSync(cachePath) ? readTargetsCache() : {}] *)
Definition loadTargetsCache (file : CacheFile) : gmap Hash ProjectTargets :=
  match file with
  | Some document => readTargetsCache document
  | None => ∅
  end.

(** The file is replaced by the document of [targets]. *)
Definition writeTargetsToCache (targets : gmap Hash ProjectTargets)
    (file : CacheFile) : CacheFile :=
  Some (Json.roundTrip <$> targets).

(** ** Specification vocabulary *)

(** The target [createGradleTargets] builds for [task], given the
    [gradleFile] found and the output directories reported. *)
Definition targetFor (env : Collaborators) (projectRoot : string)
    (context : CreateNodesContext) (outputDirs : gmap string string)
    (gradleFile : string) (task : GradleTask) : TargetConfiguration :=
  gradleTarget (gradlePath env projectRoot) gradleFile
               (createInputsMap context)
               (outputDirs !! GradleTask.name task) task.

(** The last task of [tasks] whose target goes under the key [k]. *)
Definition lastWriter (options : option GradlePluginOptions)
    (tasks : list GradleTask) (k : string) : option GradleTask :=
  last (filter (λ task, targetName options task = k) tasks).

(** A task type the group table can hold: not the name of a member of
    [Object.prototype]. *)
Definition groupable (task : GradleTask) : Prop :=
  Js.inherited (GradleTask.type task) = false.

(** The hash of the project a build file belongs to. *)
Definition hashOf (env : Collaborators) (gradleFilePath : string)
    (options : option GradlePluginOptions) (context : CreateNodesContext)
  : result Hash :=
  calculateHashForCreateNodes env (dirname env gradleFilePath)
                              (default ∅ options) context.


(** ** A sample workspace

    Two projects, [app] with the build file [app/build.gradle] and
    [core] with [core/build.gradle], used to run the plugin on concrete
    inputs. *)
Module Sample.

Definition context : CreateNodesContext :=
  {| nxJsonConfiguration := {| namedInputs := None |};
     workspaceRoot := "/workspace" |}.

Definition productionContext : CreateNodesContext :=
  {| nxJsonConfiguration :=
       {| namedInputs := Some {[ "production" := ["default"; "!{projectRoot}/src/test/**/*"] ]} |};
     workspaceRoot := "/workspace" |}.

Definition tasks : list GradleTask :=
  [ GradleTask.Build "Build" "build";
    GradleTask.Build "Verification" "test";
    GradleTask.Build "Build" "classes" ].

(** The option [{ buildTargetName: "compile" }]. *)
Definition renaming : GradlePluginOptions := {[ "buildTargetName" := "compile" ]}.

Definition outputDirs : gmap string string := {[ "build" := "build/libs" ]}.

Definition report : GradleReport :=
  {| gradleProjectToTasksTypeMap :=
       {[ ":app" := [("build", "Build"); ("test", "Verification"); ("classes", "Build")];
          ":core" := [("build", "Build")] ]};
     gradleFileToOutputDirsMap :=
       {[ "app/build.gradle" := outputDirs; "core/build.gradle" := ∅ ]};
     gradleFileToGradleProjectMap :=
       {[ "app/build.gradle" := ":app"; "core/build.gradle" := ":core" ]};
     gradleProjectToProjectName := {[ ":app" := "app"; ":core" := "core" ]} |}.

(** A report that knows the project but not its tasks. *)
Definition reportWithoutTasks : GradleReport :=
  {| gradleProjectToTasksTypeMap := ∅;
     gradleFileToOutputDirsMap := ∅;
     gradleFileToGradleProjectMap := {[ "app/build.gradle" := ":app" ]};
     gradleProjectToProjectName := {[ ":app" := "app" ]} |}.

Definition env : Collaborators :=
  {| offsetFromRoot := λ _, "../";
     normalize := Some;
     dirname := λ path,
       if String.eqb path "app/build.gradle" then "app"
       else if String.eqb path "core/build.gradle" then "core"
       else ".";
     platform := "linux";
     getGradleBinaryPath := λ _, Ok "gradlew";
     calculateHashForCreateNodes := λ projectRoot _ _, Ok (N.of_nat (String.length projectRoot));
     getGradleReport := λ _, Ok report |}.

(** The same workspace with files that cannot be read for hashing. *)
Definition unreadable : Collaborators :=
  {| offsetFromRoot := offsetFromRoot env;
     normalize := normalize env;
     dirname := dirname env;
     platform := platform env;
     getGradleBinaryPath := getGradleBinaryPath env;
     calculateHashForCreateNodes := λ _ _ _, Throw (Thrown "EACCES: permission denied");
     getGradleReport := getGradleReport env |}.

(** The same workspace with a report that lacks the task map. *)
Definition incomplete : Collaborators :=
  {| offsetFromRoot := offsetFromRoot env;
     normalize := normalize env;
     dirname := dirname env;
     platform := platform env;
     getGradleBinaryPath := getGradleBinaryPath env;
     calculateHashForCreateNodes := calculateHashForCreateNodes env;
     getGradleReport := λ _, Ok reportWithoutTasks |}.

Definition initial : State :=
  {| calculatedTargets := ∅; console := []; reportCalls := 0 |}.

(** A bundle left in the cache file by an earlier run, under the
    hash of [app]. *)
Definition cached : ProjectTargets :=
  ProjectTargets.Build "app" Js.empty ∅.

Definition targetsCache : gmap Hash ProjectTargets := {[ 3%N := cached ]}.

End Sample.

(** ** Further vocabulary *)

(** The names of the tasks of type [taskType], in the order of the
    list; [None] when there is none. *)
Definition groupOf (tasks : list GradleTask) (taskType : string)
  : option (list string) :=
  match GradleTask.name
          <$> filter (λ task, GradleTask.type task = taskType) tasks with
  | [] => None
  | names => Some names
  end.

(** The state of a process that has not inferred anything yet. *)
Definition freshState : State :=
  {| calculatedTargets := ∅; console := []; reportCalls := 0 |}.

(** The entry a call of [createNodes] on [gradleFilePath] puts into
    [calculatedTargets], if it puts one. *)
Definition written (env : Collaborators)
    (targetsCache : gmap Hash ProjectTargets)
    (options : option GradlePluginOptions) (context : CreateNodesContext)
    (gradleFilePath : string) : option (Hash * ProjectTargets) :=
  match hashOf env gradleFilePath options context with
  | Ok hash =>
      (λ bundle, (hash, bundle))
        <$> calculatedTargets
              (createNodes env targetsCache gradleFilePath options context
                           freshState).2 !! hash
  | Throw _ => None
  end.

(** [calculatedTargets] with such an entry put in. *)
Definition record (entry : option (Hash * ProjectTargets))
    (targets : gmap Hash ProjectTargets) : gmap Hash ProjectTargets :=
  match entry with
  | Some (hash, bundle) => <[hash := bundle]> targets
  | None => targets
  end.

(** The hash of a build file, when hashing does not throw. *)
Definition hashed (env : Collaborators)
    (options : option GradlePluginOptions) (context : CreateNodesContext)
    (gradleFilePath : string) : option Hash :=
  match hashOf env gradleFilePath options context with
  | Ok hash => Some hash
  | Throw _ => None
  end.

(** ** The header of a target group

    The component [TargetConfigurationGroupHeader] of the project
    details view. A rendered header is its class list and its children;
    a child that is [false] or [undefined] renders nothing and is left
    out. [targetsNumber] is a JavaScript number, of which the
    component uses two things, both built into the language: its
    [toString()] and whether it [=== 1]. The type of numbers comes
    with these two as parameters. *)
Module GroupHeader.

(** A [Pill] element with its [color] and [text] properties. *)
Record Pill : Type := {
  color : option string;
  text : string;
}.

Inductive Child : Type :=
  | Text (s : string)
  | PillElement (pill : Pill).

Record Header : Type := {
  headerClassName : string;
  children : list Child;
}.

(** The pills of a header, in order. *)
Definition pills (header : Header) : list Pill :=
  omap (λ child, match child with
                 | PillElement pill => Some pill
                 | Text _ => None
                 end) (children header).

Section Component.

Variable number : Type.
(** [n.toString()] *)
Variable toString : number → string.
(** [n === 1] *)
Variable isOne : number → bool.

Record Props : Type := {
  targetGroupName : string;
  targetsNumber : number;
  className : option string;
  atomizer : option bool;
  connectedToCloud : option bool;
}.

(** The text of the first pill. *)
Definition countText (targetsNumber : number) : string :=
  toString targetsNumber
  +:+ (if isOne targetsNumber then " target" else " targets").

Definition TargetConfigurationGroupHeader (props : Props) : Header :=
  let connectedToCloud := default true (connectedToCloud props) in
  let className := default EmptyString (className props) in
  {| headerClassName :=
       "flex items-center gap-2 px-4 py-2 text-lg capitalize " +:+ className;
     children :=
       [ Text (targetGroupName props);
         Text " ";
         PillElement {| color := None; text := countText (targetsNumber props) |} ]
       ++ match atomizer props with
          | Some true =>
              [ PillElement
                  {| color := Some (if connectedToCloud then "grey" else "yellow");
                     text := "atomizer" |} ]
          | _ => []
          end |}.

End Component.

Arguments targetGroupName {number} _.
Arguments targetsNumber {number} _.
Arguments className {number} _.
Arguments atomizer {number} _.
Arguments connectedToCloud {number} _.
Arguments countText {number} _ _ _.
Arguments TargetConfigurationGroupHeader {number} _ _ _.

End GroupHeader.

(** ** More sample workspaces *)
Module Fixture.

(** The sample workspace without a Gradle wrapper. *)
Definition noWrapper : Collaborators :=
  {| offsetFromRoot := offsetFromRoot Sample.env;
     normalize := normalize Sample.env;
     dirname := dirname Sample.env;
     platform := platform Sample.env;
     getGradleBinaryPath := λ _, Throw (Thrown "Gradle is not setup");
     calculateHashForCreateNodes := calculateHashForCreateNodes Sample.env;
     getGradleReport := getGradleReport Sample.env |}.

(** The sample workspace when the Gradle report cannot be produced. *)
Definition noReport : Collaborators :=
  {| offsetFromRoot := offsetFromRoot Sample.env;
     normalize := normalize Sample.env;
     dirname := dirname Sample.env;
     platform := platform Sample.env;
     getGradleBinaryPath := getGradleBinaryPath Sample.env;
     calculateHashForCreateNodes := calculateHashForCreateNodes Sample.env;
     getGradleReport := λ _, Throw (Thrown "gradle: command not found") |}.

(** A report of one project, [app], that has no task at all, and no
    output directories either. *)
Definition reportWithoutAnyTask : GradleReport :=
  {| gradleProjectToTasksTypeMap := {[ ":app" := [] ]};
     gradleFileToOutputDirsMap := ∅;
     gradleFileToGradleProjectMap := {[ "app/build.gradle" := ":app" ]};
     gradleProjectToProjectName := {[ ":app" := "app" ]} |}.

(** No wrapper, and a project without tasks. *)
Definition bare : Collaborators :=
  {| offsetFromRoot := offsetFromRoot Sample.env;
     normalize := normalize Sample.env;
     dirname := dirname Sample.env;
     platform := platform Sample.env;
     getGradleBinaryPath := λ _, Throw (Thrown "Gradle is not setup");
     calculateHashForCreateNodes := calculateHashForCreateNodes Sample.env;
     getGradleReport := λ _, Ok reportWithoutAnyTask |}.

(** Options that rename no task of the sample. *)
Definition unrelated : GradlePluginOptions := {[ "verbose" := "true" ]}.

(** Options that rename [classes]. *)
Definition renamedClasses : GradlePluginOptions :=
  {[ "classesTargetName" := "compile" ]}.

(** The result of the engine on the sample tasks. *)
Definition run : result (Targets * TargetGroups) :=
  createGradleTargets Sample.env Sample.tasks "app" (Some Sample.renaming)
                      Sample.context (Some Sample.outputDirs).

Definition targets : Targets :=
  match run with
  | Ok (targets, _) => targets
  | Throw _ => Js.empty
  end.

Definition targetGroups : TargetGroups :=
  match run with
  | Ok (_, targetGroups) => targetGroups
  | Throw _ => ∅
  end.

(** The target of the task [build], which the options rename to
    [compile]. *)
Definition compileTarget : TargetConfiguration :=
  targetFor Sample.env "app" Sample.context Sample.outputDirs "gradlew"
            (GradleTask.Build "Build" "build").

(** The numbers of the sample headers: 0, 1 and 2, with their
    [toString()] and whether they [=== 1]. *)
Inductive count : Type := Zero | One | Two.

Definition toString (n : count) : string :=
  match n with
  | Zero => "0"
  | One => "1"
  | Two => "2"
  end.

Definition isOne (n : count) : bool :=
  match n with
  | One => true
  | _ => false
  end.

(** A header for a group run by the atomizer, off the cloud. *)
Definition atomizerProps : GroupHeader.Props count :=
  {| GroupHeader.targetGroupName := "Build";
     GroupHeader.targetsNumber := Two;
     GroupHeader.className := None;
     GroupHeader.atomizer := Some true;
     GroupHeader.connectedToCloud := Some false |}.

Definition atomizerPills : list GroupHeader.Pill :=
  GroupHeader.pills
    (GroupHeader.TargetConfigurationGroupHeader toString isOne atomizerProps).

(** The option [{ buildTargetName: "test" }], which gives the task
    [build] the name of the task [test]. *)
Definition colliding : GradlePluginOptions := {[ "buildTargetName" := "test" ]}.

(** The two build files of the sample, and the state after them. *)
Definition files : list string := ["core/build.gradle"; "app/build.gradle"].

Definition results : list (result CreateNodesResult) :=
  (createNodesForFiles Sample.env Sample.targetsCache files None
                       Sample.context freshState).1.

Definition final : State :=
  (createNodesForFiles Sample.env Sample.targetsCache files None
                       Sample.context freshState).2.

(** The project inferred for [core/build.gradle], whose one task is
    [build]. *)
Definition coreProject : ProjectConfiguration :=
  ProjectConfiguration.Build "core"
    (Js.set Js.empty "build"
       (targetFor Sample.env "core" Sample.context ∅ "gradlew"
                  (GradleTask.Build "Build" "build")))
    None {| technologies := ["gradle"] |}.

End Fixture.

(** ** Properties of the object model *)

Section JsFacts.
Context {A : Type}.
Implicit Types (o : Js.object A) (m : gmap string A) (k : string) (v : A).

Lemma assigned_empty k : Js.assigned (Js.empty : Js.object A) k = None.
Proof. unfold Js.assigned, Js.empty. by case_decide. Qed.

Lemma assigned_set_eq o k v : Js.assigned (Js.set o k v) k = Some v.
Proof.
  unfold Js.assigned, Js.set.
  case_decide; simpl; [done|]. apply lookup_insert_eq.
Qed.

Lemma assigned_set_ne o k k' v :
  k ≠ k' → Js.assigned (Js.set o k v) k' = Js.assigned o k'.
Proof.
  intros Hne. unfold Js.assigned, Js.set.
  repeat case_decide; simplify_eq; simpl; try done.
  by apply lookup_insert_ne.
Qed.

Lemma keys_set o k v :
  Js.keys (Js.set o k v) =
  if decide (k = "__proto__") then Js.keys o else {[k]} ∪ Js.keys o.
Proof.
  unfold Js.keys, Js.set. case_decide; simpl; [done|].
  apply dom_insert_L.
Qed.

Lemma props_assigned o k :
  k ≠ "__proto__" → Js.props o !! k = Js.assigned o k.
Proof. intros Hne. unfold Js.assigned. by case_decide. Qed.
End JsFacts.

(** No name of the form [<task>TargetName] is a member of
    [Object.prototype]: reading such an option is a read of an own
    property, as [targetName] has it. *)
Lemma TargetName_not_inherited (taskName : string) :
  Js.inherited (taskName +:+ "TargetName") = false.
Proof.
  apply bool_decide_eq_false. unfold Js.ObjectPrototype. intros Hin.
  repeat (apply elem_of_cons in Hin as [Hin | Hin];
          [ exfalso; clear -Hin;
            repeat (destruct taskName as [| ? taskName]; simpl in Hin;
                    [ discriminate Hin
                    | first [ discriminate Hin | injection Hin as _ Hin ] ])
          | ]).
  by apply elem_of_nil in Hin.
Qed.

(** ** Loops *)

Section ForOf.
Context {A S : Type} (body : S → A → result S).

(** A loop invariant, indexed by the elements already visited. *)
Lemma for_of_invariant (P : list A → S → Prop) (xs : list A) (s0 s : S) :
  P [] s0 →
  (∀ visited x s1 s2,
      P visited s1 → x ∈ xs → body s1 x = Ok s2 → P (visited ++ [x]) s2) →
  for_of body xs s0 = Ok s →
  P xs s.
Proof.
  intros Hinit Hstep Hrun.
  enough (Hgen : ∀ ys visited s1,
             P visited s1 →
             (∀ x, x ∈ ys → x ∈ xs) →
             for_of body ys s1 = Ok s → P (visited ++ ys) s).
  { by apply (Hgen xs [] s0). }
  clear Hinit Hrun s0.
  induction ys as [| y ys' IH]; intros visited s1 HP Hsub Hrun; simpl in *.
  - rewrite app_nil_r. by simplify_eq.
  - destruct (body s1 y) as [s2 |] eqn:Hbody; simpl in Hrun; [| done].
    rewrite (cons_middle y visited ys'), app_assoc.
    apply (IH _ s2); [| | done].
    + apply (Hstep visited y s1 s2); [done | apply Hsub; by left | done].
    + intros z Hz. apply Hsub. by right.
Qed.

(** A loop whose body succeeds on every element runs to its end. *)
Lemma for_of_total (xs : list A) (s0 : S) :
  (∀ s x, x ∈ xs → ∃ s', body s x = Ok s') →
  ∃ s, for_of body xs s0 = Ok s.
Proof.
  revert s0. induction xs as [| x xs' IH]; intros s0 Hbody; simpl.
  - by eexists.
  - destruct (Hbody s0 x) as [s1 ->]; [by left |]. simpl.
    apply IH. intros s y Hy. apply Hbody. by right.
Qed.

End ForOf.

(** ** The last writer of a key *)

Section LastWriter.
Variable options : option GradlePluginOptions.
Implicit Types (tasks : list GradleTask) (task : GradleTask) (k : string).

Lemma lastWriter_snoc tasks task k :
  lastWriter options (tasks ++ [task]) k =
  if decide (targetName options task = k) then Some task
  else lastWriter options tasks k.
Proof.
  unfold lastWriter. rewrite filter_app.
  case_decide as Hk.
  - rewrite filter_cons_True by done. apply last_snoc.
  - rewrite filter_cons_False by done.
    by rewrite filter_nil, app_nil_r.
Qed.

Lemma lastWriter_Some tasks task k :
  lastWriter options tasks k = Some task →
  task ∈ tasks ∧ targetName options task = k.
Proof.
  unfold lastWriter. intros Hlast%last_Some_elem_of.
  apply list_elem_of_filter in Hlast. tauto.
Qed.

Lemma lastWriter_is_Some tasks task :
  task ∈ tasks → is_Some (lastWriter options tasks (targetName options task)).
Proof.
  intros Hin. unfold lastWriter. apply last_is_Some.
  intros Hnil. by apply (filter_nil_not_elem_of _ _ task) in Hnil.
Qed.

(** With pairwise distinct keys every task is the last writer of its
    own. *)
Lemma lastWriter_NoDup tasks task :
  NoDup (targetName options <$> tasks) →
  task ∈ tasks →
  lastWriter options tasks (targetName options task) = Some task.
Proof.
  induction tasks as [| task' tasks IH] using rev_ind; intros Hnodup Hin.
  - by apply elem_of_nil in Hin.
  - rewrite lastWriter_snoc.
    rewrite fmap_app in Hnodup. simpl in Hnodup.
    apply NoDup_app in Hnodup as (Hnodup & Hfresh & _).
    apply elem_of_app in Hin as [Hin | ->%list_elem_of_singleton].
    + case_decide as Hk.
      * exfalso. apply (Hfresh (targetName options task)).
        -- by apply list_elem_of_fmap_2.
        -- rewrite Hk. by left.
      * by apply IH.
    + by case_decide.
Qed.

(** A task no later task overwrites is the last writer of its key. *)
Lemma lastWriter_middle earlier task later :
  Forall (λ task', targetName options task' ≠ targetName options task) later →
  lastWriter options (earlier ++ task :: later) (targetName options task)
  = Some task.
Proof.
  intros Hlater. unfold lastWriter.
  rewrite filter_app, filter_cons_True by done.
  replace (filter _ later) with (@nil GradleTask); [apply last_snoc |].
  induction Hlater as [| task' later Hne _ IH]; [done |].
  by rewrite filter_cons_False.
Qed.
End LastWriter.

(** ** Target Rule Engine: how the loop runs *)

Section EngineFacts.
Variable env : Collaborators.
Variable projectRoot : string.
Variable options : option GradlePluginOptions.
Variable context : CreateNodesContext.
Implicit Types (tasks : list GradleTask) (task : GradleTask).
Implicit Types (targets : Targets) (targetGroups : TargetGroups).

Lemma pushTargetGroup_groupable targetGroups task :
  groupable task → ∃ targetGroups', pushTargetGroup targetGroups task = Ok targetGroups'.
Proof.
  unfold groupable, pushTargetGroup, Js.get. intros Hty.
  destruct (targetGroups !! GradleTask.type task) as [names |] eqn:Hnames.
  - rewrite Hnames. by eexists.
  - rewrite Hty, lookup_insert_eq. by eexists.
Qed.

Section Found.
Variable outputDirs : gmap string string.
Variable gradleFile : string.
Hypothesis gradle_found : getGradleBinaryPath env () = Ok gradleFile.

Local Abbreviation body :=
  (createGradleTargets_body env (createInputsMap context) projectRoot
                            options (Some outputDirs)).
Local Abbreviation target := (targetFor env projectRoot context outputDirs gradleFile).

Lemma body_groupable targets targetGroups task :
  groupable task →
  ∃ targetGroups',
    body (targets, targetGroups) task =
    Ok (Js.set targets (targetName options task) (target task), targetGroups').
Proof.
  intros [targetGroups' Hpush]%(pushTargetGroup_groupable targetGroups).
  exists targetGroups'. unfold createGradleTargets_body. simpl.
  rewrite gradle_found. simpl. by rewrite Hpush.
Qed.

Lemma body_Ok targets targetGroups task targets' targetGroups' :
  body (targets, targetGroups) task = Ok (targets', targetGroups') →
  targets' = Js.set targets (targetName options task) (target task).
Proof.
  unfold createGradleTargets_body. simpl. rewrite gradle_found. simpl.
  destruct (pushTargetGroup targetGroups task); intros ?; by simplify_eq/=.
Qed.

(** The engine completes on tasks of groupable types. *)
Lemma createGradleTargets_total tasks :
  Forall groupable tasks →
  ∃ targets targetGroups,
    createGradleTargets env tasks projectRoot options context (Some outputDirs)
    = Ok (targets, targetGroups).
Proof.
  intros Hall. unfold createGradleTargets.
  destruct (for_of_total body tasks (Js.empty, ∅)) as [[targets groups] Hrun].
  - intros [targets groups] task Hin.
    rewrite Forall_forall in Hall.
    destruct (body_groupable targets groups task) as [groups' ->]; eauto.
  - eauto.
Qed.

(** What a completed run leaves under every key: the target of the
    last task written there. *)
Lemma createGradleTargets_assigned tasks targets targetGroups k :
  createGradleTargets env tasks projectRoot options context (Some outputDirs)
  = Ok (targets, targetGroups) →
  Js.assigned targets k = target <$> lastWriter options tasks k.
Proof.
  unfold createGradleTargets. intros Hrun.
  apply (for_of_invariant body
           (λ visited acc, Js.assigned acc.1 k
                           = target <$> lastWriter options visited k))
    in Hrun; [done | apply assigned_empty |].
  intros visited task [targets1 groups1] [targets2 groups2] Hinv _ Hbody.
  apply body_Ok in Hbody as ->. simpl in *.
  rewrite lastWriter_snoc. case_decide as Hk.
  - subst k. apply assigned_set_eq.
  - by rewrite assigned_set_ne.
Qed.

(** The own properties of the result: one per distinct key, the
    key [__proto__] apart. *)
Lemma createGradleTargets_keys tasks targets targetGroups :
  createGradleTargets env tasks projectRoot options context (Some outputDirs)
  = Ok (targets, targetGroups) →
  Js.keys targets = list_to_set (targetName options <$> tasks) ∖ {["__proto__"]}.
Proof.
  unfold createGradleTargets. intros Hrun.
  apply (for_of_invariant body
           (λ visited acc,
              Js.keys acc.1
              = list_to_set (targetName options <$> visited) ∖ {["__proto__"]}))
    in Hrun; [done | unfold Js.keys; simpl; set_solver |].
  intros visited task [targets1 groups1] [targets2 groups2] Hinv _ Hbody.
  apply body_Ok in Hbody as ->. simpl in *.
  rewrite keys_set, Hinv, fmap_app, list_to_set_app_L. simpl.
  apply set_eq. intros k'. case_decide as Hk;
    repeat first [ rewrite elem_of_union | rewrite elem_of_difference
                 | rewrite elem_of_singleton | rewrite elem_of_empty ].
  - rewrite Hk. tauto.
  - split; [| tauto]. intros [-> | [? ?]]; [| tauto].
    split; [right; by left | done].
Qed.
End Found.

End EngineFacts.

(** ** Node Emitter: how one call runs *)

Section EmitterFacts.
Variable env : Collaborators.
Variable targetsCache : gmap Hash ProjectTargets.
Variable options : option GradlePluginOptions.
Variable context : CreateNodesContext.
Implicit Types (gradleFilePath projectRoot : string) (hash : Hash) (s : State).

(** The guarded block calls the report once, prints nothing, and
    writes [calculatedTargets] only when it returns a project. *)
Lemma createNodes_try_state gradleFilePath projectRoot hash s r s' :
  createNodes_try env gradleFilePath projectRoot hash options context s = (r, s') →
  reportCalls s' = S (reportCalls s) ∧
  console s' = console s ∧
  match r with
  | Ok (Projects root project) =>
      root = projectRoot ∧
      ProjectConfiguration.targetGroups project = None ∧
      ProjectConfiguration.metadata project = {| technologies := ["gradle"] |} ∧
      ∃ targetGroups,
        calculatedTargets s' =
        <[hash := ProjectTargets.Build (ProjectConfiguration.name project)
                    (ProjectConfiguration.targets project) targetGroups]>
          (calculatedTargets s)
  | _ => calculatedTargets s' = calculatedTargets s
  end.
Proof.
  unfold createNodes_try. intros Htry.
  destruct (getGradleReport env ()) as [report |]; [| by simplify_eq].
  destruct (_ ≫= (gradleProjectToProjectName report !!.)) as [[| c projectName] |];
    [by simplify_eq | | by simplify_eq].
  destruct (_ ≫= _) as [[targets targetGroups] |]; simplify_eq; simpl; [| done].
  repeat split; eauto.
Qed.

Lemma createNodes_hash_throw gradleFilePath s e :
  hashOf env gradleFilePath options context = Throw e →
  createNodes env targetsCache gradleFilePath options context s = (Throw e, s).
Proof. unfold hashOf, createNodes. by intros ->. Qed.

Lemma createNodes_hit gradleFilePath s hash cached :
  hashOf env gradleFilePath options context = Ok hash →
  targetsCache !! hash = Some cached →
  createNodes env targetsCache gradleFilePath options context s =
  (Ok (Projects (dirname env gradleFilePath)
         (ProjectConfiguration.Build
            (ProjectTargets.name cached) (ProjectTargets.targets cached)
            (Some (ProjectTargets.targetGroups cached))
            {| technologies := ["gradle"] |})),
   {| calculatedTargets := <[hash := cached]> (calculatedTargets s);
      console := console s;
      reportCalls := reportCalls s |}).
Proof. unfold hashOf, createNodes. by intros -> ->. Qed.

Lemma createNodes_miss gradleFilePath s hash :
  hashOf env gradleFilePath options context = Ok hash →
  targetsCache !! hash = None →
  createNodes env targetsCache gradleFilePath options context s =
  match createNodes_try env gradleFilePath (dirname env gradleFilePath) hash
                        options context s with
  | (Ok r, s') => (Ok r, s')
  | (Throw e, s') =>
      (Ok EmptyObject,
       {| calculatedTargets := calculatedTargets s';
          console := console s' ++ [e];
          reportCalls := reportCalls s' |})
  end.
Proof. unfold hashOf, createNodes. by intros -> ->. Qed.



End EmitterFacts.

(** ** Target Rule Engine: results *)

(** On tasks of groupable types, with the Gradle wrapper found and the
    output directories reported, the engine returns, and what it holds
    under every key is the target of the last task written there. *)
Lemma createGradleTargets_result (env : Collaborators) (tasks : list GradleTask)
    (projectRoot : string) (options : option GradlePluginOptions)
    (context : CreateNodesContext) (outputDirs : gmap string string)
    (gradleFile : string) :
  getGradleBinaryPath env () = Ok gradleFile →
  Forall groupable tasks →
  ∃ targets targetGroups,
    createGradleTargets env tasks projectRoot options context (Some outputDirs)
    = Ok (targets, targetGroups) ∧
    ∀ k, Js.assigned targets k
         = targetFor env projectRoot context outputDirs gradleFile
             <$> lastWriter options tasks k.
Proof.
  intros Hfound Hall.
  destruct (createGradleTargets_total env projectRoot options context
              outputDirs gradleFile Hfound tasks Hall)
    as (targets & targetGroups & Hrun).
  exists targets, targetGroups. split; [done |].
  intros k. by eapply createGradleTargets_assigned.
Qed.

(** The group table only ever holds groupable types, and a task is
    added to it only when its type is groupable. *)
Lemma pushTargetGroup_Ok_inv (targetGroups targetGroups' : TargetGroups)
    (task : GradleTask) :
  (∀ k, is_Some (targetGroups !! k) → Js.inherited k = false) →
  pushTargetGroup targetGroups task = Ok targetGroups' →
  groupable task ∧
  (∀ k, is_Some (targetGroups' !! k) → Js.inherited k = false).
Proof.
  intros Hown. unfold pushTargetGroup, groupable, Js.get.
  destruct (targetGroups !! GradleTask.type task) as [names |] eqn:Hnames.
  - rewrite Hnames. intros Hpush. simplify_eq.
    assert (Js.inherited (GradleTask.type task) = false) as Hty by eauto.
    split; [done |]. intros k. rewrite lookup_insert.
    case_decide; [by subst | apply Hown].
  - destruct (Js.inherited (GradleTask.type task)) eqn:Hty.
    + simpl. by rewrite Hnames.
    + simpl. rewrite lookup_insert_eq. intros Hpush. simplify_eq.
      split; [done |]. intros k. rewrite !lookup_insert.
      repeat case_decide; subst; try done. apply Hown.
Qed.

(** The hypotheses of [createGradleTargets_result] are what it takes
    for the engine to return on a non-empty task list: the output
    directories are there, the Gradle wrapper is found, and every task
    type is groupable. *)
Lemma createGradleTargets_Ok_inv (env : Collaborators) (tasks : list GradleTask)
    (projectRoot : string) (options : option GradlePluginOptions)
    (context : CreateNodesContext) (outputDirs : option (gmap string string))
    (targets : Targets) (targetGroups : TargetGroups) :
  createGradleTargets env tasks projectRoot options context outputDirs
  = Ok (targets, targetGroups) →
  tasks ≠ [] →
  is_Some outputDirs ∧
  (∃ gradleFile, getGradleBinaryPath env () = Ok gradleFile) ∧
  Forall groupable tasks.
Proof.
  intros Hrun Hne. split_and!.
  - destruct tasks as [| task tasks]; [done |].
    destruct outputDirs; [done |]. by vm_compute in Hrun.
  - destruct tasks as [| task tasks]; [done |].
    unfold createGradleTargets in Hrun. simpl in Hrun.
    destruct (Js.Map_get outputDirs (GradleTask.name task)); [| done].
    simpl in Hrun.
    destruct (getGradleBinaryPath env ()) as [gradleFile |]; [by eexists | done].
  - unfold createGradleTargets in Hrun.
    apply (for_of_invariant _
             (λ visited acc,
                (∀ k, is_Some (acc.2 !! k) → Js.inherited k = false) ∧
                Forall groupable visited)) in Hrun; [tauto | |].
    + split; [| done]. intros k [names Hk]. simpl in Hk. by rewrite lookup_empty in Hk.
    + intros visited task [targets1 groups1] [targets2 groups2]
        [Hown Hvisited] _ Hbody.
      unfold createGradleTargets_body in Hbody.
      destruct (Js.Map_get outputDirs (GradleTask.name task)); [| done].
      simpl in Hbody.
      destruct (getGradleBinaryPath env ()); [| done]. simpl in Hbody.
      destruct (pushTargetGroup groups1 task) as [groups' |] eqn:Hpush; [| done].
      simpl in Hbody. simplify_eq.
      apply pushTargetGroup_Ok_inv in Hpush as [Hty Hown']; [| done].
      split; [done |]. apply Forall_app. by split; [| apply Forall_singleton].
Qed.

(** A task whose type names a member of [Object.prototype] makes the
    engine throw. *)
Example createGradleTargets_ungroupable :
  createGradleTargets Sample.env [GradleTask.Build "constructor" "jar"] "app"
                      None Sample.context (Some ∅)
  = Throw (TypeError "targetGroups[task.type].push is not a function").
Proof. reflexivity. Qed.

(** The example of the specification: three tasks, no production
    preset, no outputs, no overrides. *)
Example createGradleTargets_sample :
  match createGradleTargets Sample.env Sample.tasks "app" None Sample.context
                            (Some ∅) with
  | Ok (targets, targetGroups) =>
      Some (Js.keys targets,
            Js.assigned targets "build",
            dependsOn <$> Js.assigned targets "test",
            targetGroups)
  | Throw _ => None
  end =
  Some ({[ "build"; "test"; "classes" ]},
        Some {| command := "../gradlew build";
                options := {| cwd := "{projectRoot}" |};
                cache := true;
                inputs := Js.Own ["default"; "^default"];
                outputs := None;
                dependsOn := Js.Own ["^build"; "classes"] |},
        Some (Js.Own ["classes"]),
        {[ "Build" := ["build"; "classes"]; "Verification" := ["test"] ]}).
Proof. vm_compute. reflexivity. Qed.

(** Every target of a result comes from one of the tasks. *)
Lemma assigned_from_task (env : Collaborators) (tasks : list GradleTask)
    (projectRoot : string) (options : option GradlePluginOptions)
    (context : CreateNodesContext) (outputDirs : gmap string string)
    (gradleFile : string) (targets : Targets) (k : string)
    (target : TargetConfiguration) :
  (∀ k, Js.assigned targets k
        = targetFor env projectRoot context outputDirs gradleFile
            <$> lastWriter options tasks k) →
  Js.assigned targets k = Some target →
  ∃ task, task ∈ tasks ∧ targetName options task = k ∧
          target = targetFor env projectRoot context outputDirs gradleFile task.
Proof.
  intros Hspec Hk. rewrite Hspec in Hk.
  destruct (lastWriter options tasks k) as [task |] eqn:Hlast; [| done].
  apply lastWriter_Some in Hlast as [Hin Hname].
  exists task. by simplify_eq/=.
Qed.

Lemma cacheable_iff (taskType : string) :
  taskType ∈ cacheableTaskType ↔ taskType = "Build" ∨ taskType = "Verification".
Proof. unfold cacheableTaskType. set_solver. Qed.

(** C1. For every task list and every option set on which the engine
    returns (the Gradle wrapper is found and every task type is
    groupable, which [createGradleTargets_Ok_inv] shows to be needed),
    every task has a target in the result; the cache flag of the
    target built for a task, and so of every target of the result, is
    true exactly when the type of that task is "Build" or
    "Verification". The options are quantified over: none of them
    changes the flag. *)
Theorem cache_flag_follows_task_type (env : Collaborators)
    (tasks : list GradleTask) (projectRoot : string)
    (options : option GradlePluginOptions) (context : CreateNodesContext)
    (outputDirs : gmap string string) (gradleFile : string) :
  getGradleBinaryPath env () = Ok gradleFile →
  Forall groupable tasks →
  ∃ targets targetGroups,
    createGradleTargets env tasks projectRoot options context (Some outputDirs)
    = Ok (targets, targetGroups) ∧
    (∀ task, task ∈ tasks →
       ∃ target, Js.assigned targets (targetName options task) = Some target) ∧
    (∀ task, task ∈ tasks →
       cache (targetFor env projectRoot context outputDirs gradleFile task) = true
       ↔ GradleTask.type task = "Build" ∨ GradleTask.type task = "Verification") ∧
    ∀ k target,
      Js.assigned targets k = Some target →
      ∃ task,
        task ∈ tasks ∧ targetName options task = k ∧
        target = targetFor env projectRoot context outputDirs gradleFile task ∧
        (cache target = true ↔
         GradleTask.type task = "Build" ∨ GradleTask.type task = "Verification").
Proof.
  intros Hfound Hall.
  destruct (createGradleTargets_result env tasks projectRoot options context
              outputDirs gradleFile Hfound Hall)
    as (targets & targetGroups & Hrun & Hspec).
  assert (∀ task,
            cache (targetFor env projectRoot context outputDirs gradleFile task)
            = true
            ↔ GradleTask.type task = "Build" ∨ GradleTask.type task = "Verification")
    as Hflag.
  { intros task. unfold targetFor, gradleTarget. simpl.
    rewrite bool_decide_eq_true. apply cacheable_iff. }
  exists targets, targetGroups. split_and!; [done | | |].
  - intros task Hin. rewrite Hspec.
    destruct (lastWriter_is_Some options tasks task Hin) as [task' ->].
    by eexists.
  - intros task _. apply Hflag.
  - intros k target Hk.
    destruct (assigned_from_task _ _ _ _ _ _ _ _ _ _ Hspec Hk)
      as (task & Hin & Hname & ->).
    exists task. split_and!; [done | done | done | apply Hflag].
Qed.

Lemma cache_flag_follows_task_type_witness :
  ∃ targets targetGroups,
    createGradleTargets Sample.env Sample.tasks "app"
      (Some Sample.renaming) Sample.context
      (Some Sample.outputDirs)
    = Ok (targets, targetGroups) ∧
    (∀ task, task ∈ Sample.tasks →
       ∃ target,
         Js.assigned targets
           (targetName (Some Sample.renaming) task)
         = Some target) ∧
    (∀ task, task ∈ Sample.tasks →
       cache (targetFor Sample.env "app" Sample.context Sample.outputDirs
                "gradlew" task) = true
       ↔ GradleTask.type task = "Build" ∨ GradleTask.type task = "Verification") ∧
    ∀ k target,
      Js.assigned targets k = Some target →
      ∃ task,
        task ∈ Sample.tasks ∧
        targetName (Some Sample.renaming) task = k ∧
        target = targetFor Sample.env "app" Sample.context
                   Sample.outputDirs "gradlew" task ∧
        (cache target = true ↔
         GradleTask.type task = "Build" ∨ GradleTask.type task = "Verification").
Proof.
  apply (cache_flag_follows_task_type Sample.env Sample.tasks "app"
           (Some Sample.renaming) Sample.context
           Sample.outputDirs "gradlew").
  - reflexivity.
  - unfold Sample.tasks, groupable. repeat constructor.
Defined.

(** *** Dependency edges and inputs *)

(** [dependsOnMap[task.name]] for every task name. *)
Lemma dependsOn_table (path gradleFile : string)
    (inputsMap : gmap string (list string)) (outputs : option string)
    (task : GradleTask) :
  dependsOn (gradleTarget path gradleFile inputsMap outputs task) =
  if decide (GradleTask.name task = "build") then Js.Own ["^build"; "classes"]
  else if decide (GradleTask.name task = "test") then Js.Own ["classes"]
  else if decide (GradleTask.name task = "classes") then Js.Own ["^classes"]
  else if Js.inherited (GradleTask.name task)
       then Js.Inherited (GradleTask.name task)
       else Js.Undefined.
Proof.
  destruct task as [taskType taskName].
  unfold gradleTarget, dependsOnMap, Js.get. simpl.
  destruct (decide (taskName = "build")) as [-> | Hbuild]; [reflexivity |].
  destruct (decide (taskName = "test")) as [-> | Htest]; [reflexivity |].
  destruct (decide (taskName = "classes")) as [-> | Hclasses]; [reflexivity |].
  by rewrite !lookup_insert_ne, lookup_empty by done.
Qed.

(** [inputsMap[task.name]] for every task name. *)
Lemma inputs_table (path gradleFile : string) (context : CreateNodesContext)
    (outputs : option string) (task : GradleTask) :
  inputs (gradleTarget path gradleFile (createInputsMap context) outputs task) =
  if decide (GradleTask.name task = "build")
  then Js.Own (if production context
               then ["production"; "^production"]
               else ["default"; "^default"])
  else if decide (GradleTask.name task = "test")
  then Js.Own ["default"; if production context then "^production" else "^default"]
  else if decide (GradleTask.name task = "classes")
  then Js.Own ["default"; "^default"]
  else if Js.inherited (GradleTask.name task)
       then Js.Inherited (GradleTask.name task)
       else Js.Undefined.
Proof.
  destruct task as [taskType taskName].
  unfold gradleTarget, createInputsMap, Js.get. simpl.
  destruct (decide (taskName = "build")) as [-> | Hbuild]; [reflexivity |].
  destruct (decide (taskName = "test")) as [-> | Htest]; [reflexivity |].
  destruct (decide (taskName = "classes")) as [-> | Hclasses]; [reflexivity |].
  by rewrite !lookup_insert_ne, lookup_empty by done.
Qed.

(** With the production preset defined, [build] reads production
    inputs and [test] reads the production inputs of its upstream
    projects. *)
Example inputs_with_production :
  match createGradleTargets Sample.env Sample.tasks "app" None
                            Sample.productionContext (Some ∅) with
  | Ok (targets, _) =>
      Some (inputs <$> Js.assigned targets "build",
            inputs <$> Js.assigned targets "test",
            inputs <$> Js.assigned targets "classes")
  | Throw _ => None
  end =
  Some (Some (Js.Own ["production"; "^production"]),
        Some (Js.Own ["default"; "^production"]),
        Some (Js.Own ["default"; "^default"])).
Proof. vm_compute. reflexivity. Qed.

(** C2. Evaluation at the task name [toString]: the read
    [dependsOnMap[task.name]] finds no own property and falls back on
    [Object.prototype], so the target's [dependsOn] is the inherited
    [toString] member instead of being unset. For the names that are
    not members of [Object.prototype] the table is [dependsOn_table]. *)
Theorem dependsOn_of_inherited_task_name :
  match createGradleTargets Sample.env [GradleTask.Build "Other" "toString"]
                            "app" None Sample.context (Some ∅) with
  | Ok (targets, _) => dependsOn <$> Js.assigned targets "toString"
  | Throw _ => None
  end = Some (Js.Inherited "toString").
Proof. vm_compute. reflexivity. Qed.

(** C3. Evaluation at the task name [constructor]: the read
    [inputsMap[task.name]] finds no own property and falls back on
    [Object.prototype], so the target's [inputs] is the inherited
    [constructor] member instead of being unset. For the names that are
    not members of [Object.prototype] the table is [inputs_table]. *)
Theorem inputs_of_inherited_task_name :
  match createGradleTargets Sample.env [GradleTask.Build "Other" "constructor"]
                            "app" None Sample.context (Some ∅) with
  | Ok (targets, _) => inputs <$> Js.assigned targets "constructor"
  | Throw _ => None
  end = Some (Js.Inherited "constructor").
Proof. vm_compute. reflexivity. Qed.

(** *** Target names *)

Lemma targetName_override (options : GradlePluginOptions) (task : GradleTask)
    (override : string) :
  options !! (GradleTask.name task +:+ "TargetName") = Some override →
  targetName (Some options) task = override.
Proof. unfold targetName. simpl. by intros ->. Qed.

Lemma targetName_default (options : option GradlePluginOptions) (task : GradleTask) :
  (∀ opts, options = Some opts →
           opts !! (GradleTask.name task +:+ "TargetName") = None) →
  targetName options task = GradleTask.name task.
Proof.
  unfold targetName. destruct options as [opts |]; simpl; [| done].
  intros Hnone. by rewrite (Hnone opts).
Qed.

(** C6, as the claim has it, fails when the overridden name is the
    name under which a later task is written: with
    [{ buildTargetName: "test" }] the options have the entry for the
    task [build], whose target is written under [test], and the task
    [test] that follows replaces it. What the targets returned hold
    under [test] is the target of [test], with the command of [test],
    and not the target of [build]. *)
Lemma renamed_target_replaced_by_later_task :
  Fixture.colliding !! ("build" +:+ "TargetName") = Some "test" ∧
  ∃ targets targetGroups,
    createGradleTargets Sample.env
      [GradleTask.Build "Build" "build"; GradleTask.Build "Verification" "test"]
      "app" (Some Fixture.colliding) Sample.context (Some Sample.outputDirs)
    = Ok (targets, targetGroups) ∧
    command <$> Js.props targets !! "test" = Some "../gradlew test" ∧
    Js.props targets !! "test"
    ≠ Some (targetFor Sample.env "app" Sample.context Sample.outputDirs
                      "gradlew" (GradleTask.Build "Build" "build")) ∧
    Js.assigned targets "test"
    ≠ Some (targetFor Sample.env "app" Sample.context Sample.outputDirs
                      "gradlew" (GradleTask.Build "Build" "build")).
Proof.
  split; [reflexivity |].
  eexists _, _. split; [vm_compute; reflexivity |].
  split; [vm_compute; reflexivity |].
  split; vm_compute; discriminate.
Qed.

(** An override to [__proto__] does not make an entry at all: the
    assignment replaces the prototype of [targets], which is left
    without own property. *)
Example override_to_proto_makes_no_entry :
  match createGradleTargets Sample.env [GradleTask.Build "Build" "build"]
          "app" (Some {[ "buildTargetName" := "__proto__" ]}) Sample.context
          (Some Sample.outputDirs) with
  | Ok (targets, _) =>
      Some (size (Js.props targets), command <$> Js.proto targets)
  | Throw _ => None
  end = Some (0, Some "../gradlew build").
Proof. vm_compute. reflexivity. Qed.

(** C6, amended. The target of a task named [N] is written under
    [options[N + "TargetName"]] when the options have that entry and
    under [N] when they have not, while its command, its inputs and its
    dependsOn are computed from [N]. The targets returned hold it under
    that key, as an own entry, provided no later task of the list is
    written under the same key and the key is not [__proto__]. *)
Theorem target_stored_under_resolved_name (env : Collaborators)
    (earlier later : list GradleTask) (task : GradleTask)
    (projectRoot : string) (options : option GradlePluginOptions)
    (context : CreateNodesContext) (outputDirs : gmap string string)
    (gradleFile : string) :
  getGradleBinaryPath env () = Ok gradleFile →
  Forall groupable (earlier ++ task :: later) →
  Forall (λ task', targetName options task' ≠ targetName options task) later →
  targetName options task ≠ "__proto__" →
  ∃ targets targetGroups target,
    createGradleTargets env (earlier ++ task :: later) projectRoot options
                        context (Some outputDirs)
    = Ok (targets, targetGroups) ∧
    target = targetFor env projectRoot context outputDirs gradleFile task ∧
    command target
    = gradlePath env projectRoot +:+ gradleFile +:+ " " +:+ GradleTask.name task ∧
    inputs target = Js.get (createInputsMap context) (GradleTask.name task) ∧
    dependsOn target = Js.get dependsOnMap (GradleTask.name task) ∧
    (∀ opts override,
       options = Some opts →
       opts !! (GradleTask.name task +:+ "TargetName") = Some override →
       Js.props targets !! override = Some target) ∧
    ((∀ opts, options = Some opts →
              opts !! (GradleTask.name task +:+ "TargetName") = None) →
     Js.props targets !! GradleTask.name task = Some target).
Proof.
  intros Hfound Hall Hlater Hproto.
  destruct (createGradleTargets_result env (earlier ++ task :: later) projectRoot
              options context outputDirs gradleFile Hfound Hall)
    as (targets & targetGroups & Hrun & Hspec).
  exists targets, targetGroups,
    (targetFor env projectRoot context outputDirs gradleFile task).
  assert (Js.props targets !! targetName options task
          = Some (targetFor env projectRoot context outputDirs gradleFile task))
    as Hstored.
  { rewrite props_assigned by done. by rewrite Hspec, lastWriter_middle. }
  split_and!; try done.
  - intros opts override -> Hoverride.
    by rewrite (targetName_override opts task override) in Hstored.
  - intros Hnone. by rewrite targetName_default in Hstored.
Qed.

Lemma target_stored_under_resolved_name_witness :
  ∃ targets targetGroups target,
    createGradleTargets Sample.env
      ([GradleTask.Build "Build" "classes"]
       ++ GradleTask.Build "Build" "build"
       :: [GradleTask.Build "Verification" "test"])
      "app" (Some Sample.renaming) Sample.context
      (Some Sample.outputDirs)
    = Ok (targets, targetGroups) ∧
    target = targetFor Sample.env "app" Sample.context Sample.outputDirs
                       "gradlew" (GradleTask.Build "Build" "build") ∧
    command target = gradlePath Sample.env "app" +:+ "gradlew" +:+ " " +:+ "build" ∧
    inputs target = Js.get (createInputsMap Sample.context) "build" ∧
    dependsOn target = Js.get dependsOnMap "build" ∧
    (∀ opts override,
       Some Sample.renaming = Some opts →
       opts !! ("build" +:+ "TargetName") = Some override →
       Js.props targets !! override = Some target) ∧
    ((∀ opts, Some Sample.renaming = Some opts →
              opts !! ("build" +:+ "TargetName") = None) →
     Js.props targets !! "build" = Some target).
Proof.
  apply (target_stored_under_resolved_name Sample.env
           [GradleTask.Build "Build" "classes"]
           [GradleTask.Build "Verification" "test"]
           (GradleTask.Build "Build" "build")
           "app" (Some Sample.renaming) Sample.context
           Sample.outputDirs "gradlew").
  - reflexivity.
  - unfold groupable. repeat constructor.
  - repeat constructor. vm_compute. discriminate.
  - vm_compute. discriminate.
Defined.

(** The run of the witness: the target of [build] is the own entry
    [compile], and there is none under [build]. *)
Example renamed_target_sample :
  match createGradleTargets Sample.env
          [GradleTask.Build "Build" "classes"; GradleTask.Build "Build" "build";
           GradleTask.Build "Verification" "test"]
          "app" (Some Sample.renaming) Sample.context (Some Sample.outputDirs) with
  | Ok (targets, _) =>
      Some (command <$> Js.props targets !! "compile",
            command <$> Js.props targets !! "build")
  | Throw _ => None
  end = Some (Some "../gradlew build", None).
Proof. vm_compute. reflexivity. Qed.

(** *** Outputs *)

Lemma outputs_of_directory (path gradleFile : string)
    (inputsMap : gmap string (list string)) (outputDir : option string)
    (task : GradleTask) :
  outputs (gradleTarget path gradleFile inputsMap outputDir task) =
  match outputDir with
  | Some dir => if decide (dir = EmptyString) then None else Some [dir]
  | None => None
  end.
Proof.
  unfold gradleTarget. simpl.
  destruct outputDir as [[| c dir] |]; [done | | done].
  by rewrite decide_False.
Qed.

(** C8, as the claim has it, fails on an output directory that is the
    empty string: the map has an entry for [build], and the target's
    outputs are unset. *)
Lemma empty_output_directory_unset :
  ({[ "build" := EmptyString ]} : gmap string string) !! "build" = Some EmptyString ∧
  match createGradleTargets Sample.env [GradleTask.Build "Build" "build"]
          "app" None Sample.context (Some {[ "build" := EmptyString ]}) with
  | Ok (targets, _) => outputs <$> Js.assigned targets "build"
  | Throw _ => None
  end = Some None.
Proof. split; vm_compute; reflexivity. Qed.

(** C8, amended. Whenever the engine returns, the outputs of the target
    built for a task, and so of every target of the result, are the
    one-element list of the directory reported for the task when that
    directory is a non-empty string, and unset when the map has no
    entry for the task or the entry is the empty string; they are never
    the empty list. *)
Theorem outputs_follow_output_directory (env : Collaborators)
    (tasks : list GradleTask) (projectRoot : string)
    (options : option GradlePluginOptions) (context : CreateNodesContext)
    (outputDirs : gmap string string) (gradleFile : string) :
  getGradleBinaryPath env () = Ok gradleFile →
  Forall groupable tasks →
  ∃ targets targetGroups,
    createGradleTargets env tasks projectRoot options context (Some outputDirs)
    = Ok (targets, targetGroups) ∧
    (∀ task, task ∈ tasks →
       outputs (targetFor env projectRoot context outputDirs gradleFile task) =
         match outputDirs !! GradleTask.name task with
         | Some dir => if decide (dir = EmptyString) then None else Some [dir]
         | None => None
         end) ∧
    ∀ k target,
      Js.assigned targets k = Some target →
      ∃ task,
        task ∈ tasks ∧ targetName options task = k ∧
        target = targetFor env projectRoot context outputDirs gradleFile task ∧
        outputs target =
          match outputDirs !! GradleTask.name task with
          | Some dir => if decide (dir = EmptyString) then None else Some [dir]
          | None => None
          end ∧
        outputs target ≠ Some [].
Proof.
  intros Hfound Hall.
  destruct (createGradleTargets_result env tasks projectRoot options context
              outputDirs gradleFile Hfound Hall)
    as (targets & targetGroups & Hrun & Hspec).
  exists targets, targetGroups. split_and!; [done | |].
  - intros task _. unfold targetFor. apply outputs_of_directory.
  - intros k target Hk.
    destruct (assigned_from_task _ _ _ _ _ _ _ _ _ _ Hspec Hk)
      as (task & Hin & Hname & ->).
    exists task. split_and!; [done | done | done | |];
      unfold targetFor; rewrite outputs_of_directory.
    + done.
    + destruct (outputDirs !! GradleTask.name task); [| done].
      by case_decide.
Qed.

Lemma outputs_follow_output_directory_witness :
  ∃ targets targetGroups,
    createGradleTargets Sample.env Sample.tasks "app" None Sample.context
                        (Some Sample.outputDirs)
    = Ok (targets, targetGroups) ∧
    (∀ task, task ∈ Sample.tasks →
       outputs (targetFor Sample.env "app" Sample.context Sample.outputDirs
                  "gradlew" task) =
         match Sample.outputDirs !! GradleTask.name task with
         | Some dir => if decide (dir = EmptyString) then None else Some [dir]
         | None => None
         end) ∧
    ∀ k target,
      Js.assigned targets k = Some target →
      ∃ task,
        task ∈ Sample.tasks ∧ targetName None task = k ∧
        target = targetFor Sample.env "app" Sample.context Sample.outputDirs
                   "gradlew" task ∧
        outputs target =
          match Sample.outputDirs !! GradleTask.name task with
          | Some dir => if decide (dir = EmptyString) then None else Some [dir]
          | None => None
          end ∧
        outputs target ≠ Some [].
Proof.
  apply (outputs_follow_output_directory Sample.env Sample.tasks "app" None
           Sample.context Sample.outputDirs "gradlew").
  - reflexivity.
  - unfold Sample.tasks, groupable. repeat constructor.
Defined.

(** *** One target per task *)

(** C9, as the claim has it, fails when an override gives a task the
    name of another one: with [{ buildTargetName: "test" }] the tasks
    [build] and [test], of distinct names, are both written under
    [test], and the result has one target for two tasks. *)
Lemma override_collides_with_task :
  NoDup (GradleTask.name <$> [GradleTask.Build "Build" "build";
                              GradleTask.Build "Verification" "test"]) ∧
  match createGradleTargets Sample.env
          [GradleTask.Build "Build" "build"; GradleTask.Build "Verification" "test"]
          "app" (Some {[ "buildTargetName" := "test" ]}) Sample.context (Some ∅) with
  | Ok (targets, _) =>
      Some (size (Js.props targets),
            command <$> Js.assigned targets "test",
            command <$> Js.assigned targets "build")
  | Throw _ => None
  end = Some (1, Some "../gradlew test", None).
Proof.
  split; [| vm_compute; reflexivity].
  compute_done.
Qed.

(** C9, amended. When the resolved target names of the tasks are
    pairwise distinct and none of them is [__proto__], the result of
    the engine has exactly one own entry per task: its keys are the
    resolved names and every task finds its own target under its
    name. *)
Theorem distinct_names_one_target_per_task (env : Collaborators)
    (tasks : list GradleTask) (projectRoot : string)
    (options : option GradlePluginOptions) (context : CreateNodesContext)
    (outputDirs : gmap string string) (gradleFile : string) :
  getGradleBinaryPath env () = Ok gradleFile →
  Forall groupable tasks →
  NoDup (targetName options <$> tasks) →
  "__proto__" ∉ targetName options <$> tasks →
  ∃ targets targetGroups,
    createGradleTargets env tasks projectRoot options context (Some outputDirs)
    = Ok (targets, targetGroups) ∧
    size (Js.props targets) = length tasks ∧
    Js.keys targets = list_to_set (targetName options <$> tasks) ∧
    ∀ task,
      task ∈ tasks →
      Js.props targets !! targetName options task
      = Some (targetFor env projectRoot context outputDirs gradleFile task).
Proof.
  intros Hfound Hall Hnodup Hproto.
  destruct (createGradleTargets_result env tasks projectRoot options context
              outputDirs gradleFile Hfound Hall)
    as (targets & targetGroups & Hrun & Hspec).
  pose proof (createGradleTargets_keys env projectRoot options context
                outputDirs gradleFile Hfound tasks targets targetGroups Hrun)
    as Hkeys.
  assert (Js.keys targets = list_to_set (targetName options <$> tasks)) as Hkeys'.
  { rewrite Hkeys. apply set_eq. intros k.
    rewrite elem_of_difference, elem_of_list_to_set, not_elem_of_singleton.
    split; [tauto |]. intros Hk. split; [done |]. by intros ->. }
  exists targets, targetGroups. split_and!; [done | | done |].
  - rewrite <- size_dom. fold (Js.keys targets). rewrite Hkeys'.
    rewrite size_list_to_set by done. apply length_fmap.
  - intros task Hin.
    rewrite props_assigned.
    + by rewrite Hspec, lastWriter_NoDup.
    + intros Heq. apply Hproto. rewrite <- Heq. by apply list_elem_of_fmap_2.
Qed.

Lemma distinct_names_one_target_per_task_witness :
  ∃ targets targetGroups,
    createGradleTargets Sample.env Sample.tasks "app" (Some Sample.renaming)
                        Sample.context (Some Sample.outputDirs)
    = Ok (targets, targetGroups) ∧
    size (Js.props targets) = length Sample.tasks ∧
    Js.keys targets
    = list_to_set (targetName (Some Sample.renaming) <$> Sample.tasks) ∧
    ∀ task,
      task ∈ Sample.tasks →
      Js.props targets !! targetName (Some Sample.renaming) task
      = Some (targetFor Sample.env "app" Sample.context Sample.outputDirs
                "gradlew" task).
Proof.
  apply (distinct_names_one_target_per_task Sample.env Sample.tasks "app"
           (Some Sample.renaming) Sample.context Sample.outputDirs "gradlew").
  - reflexivity.
  - unfold Sample.tasks, groupable. repeat constructor.
  - compute_done.
  - compute_done.
Defined.

(** ** Node Emitter: results *)

(** C4. When the hash of the file has an entry in the cache read at
    start-up, [createNodes] returns that entry with
    [metadata.technologies = ["gradle"]] added, and it does not call
    [getGradleReport]: the count of calls is unchanged, and the outcome
    is the same with any other report function (and any other
    collaborator but [dirname] and the hasher). *)
Theorem cache_hit_returns_cached_bundle (env : Collaborators)
    (targetsCache : gmap Hash ProjectTargets) (gradleFilePath : string)
    (options : option GradlePluginOptions) (context : CreateNodesContext)
    (s : State) (hash : Hash) (cached : ProjectTargets) :
  hashOf env gradleFilePath options context = Ok hash →
  targetsCache !! hash = Some cached →
  ∃ s',
    createNodes env targetsCache gradleFilePath options context s =
    (Ok (Projects (dirname env gradleFilePath)
           (ProjectConfiguration.Build
              (ProjectTargets.name cached) (ProjectTargets.targets cached)
              (Some (ProjectTargets.targetGroups cached))
              {| technologies := ["gradle"] |})),
     s') ∧
    reportCalls s' = reportCalls s ∧
    console s' = console s ∧
    ∀ env' : Collaborators,
      dirname env' = dirname env →
      calculateHashForCreateNodes env' = calculateHashForCreateNodes env →
      createNodes env' targetsCache gradleFilePath options context s
      = createNodes env targetsCache gradleFilePath options context s.
Proof.
  intros Hhash Hcache.
  eexists. split_and!.
  - by apply createNodes_hit.
  - done.
  - done.
  - intros env' Hdirname Hhasher.
    rewrite (createNodes_hit env _ _ _ _ _ hash cached) by done.
    assert (hashOf env' gradleFilePath options context = Ok hash) as Hhash'.
    { unfold hashOf in *. by rewrite Hdirname, Hhasher. }
    rewrite (createNodes_hit env' _ _ _ _ _ hash cached) by done.
    by rewrite Hdirname.
Qed.

Lemma cache_hit_returns_cached_bundle_witness :
  ∃ s',
    createNodes Sample.env Sample.targetsCache "app/build.gradle" None
                Sample.context Sample.initial =
    (Ok (Projects (dirname Sample.env "app/build.gradle")
           (ProjectConfiguration.Build
              (ProjectTargets.name Sample.cached)
              (ProjectTargets.targets Sample.cached)
              (Some (ProjectTargets.targetGroups Sample.cached))
              {| technologies := ["gradle"] |})),
     s') ∧
    reportCalls s' = reportCalls Sample.initial ∧
    console s' = console Sample.initial ∧
    ∀ env' : Collaborators,
      dirname env' = dirname Sample.env →
      calculateHashForCreateNodes env' = calculateHashForCreateNodes Sample.env →
      createNodes env' Sample.targetsCache "app/build.gradle" None
                  Sample.context Sample.initial
      = createNodes Sample.env Sample.targetsCache "app/build.gradle" None
                    Sample.context Sample.initial.
Proof.
  apply (cache_hit_returns_cached_bundle Sample.env Sample.targetsCache
           "app/build.gradle" None Sample.context Sample.initial
           3%N Sample.cached).
  - reflexivity.
  - reflexivity.
Defined.

(** C5, as the claim has it, fails on an exception raised while
    hashing: [calculateHashForCreateNodes] is called before the [try]
    block, so its exception reaches the caller and nothing is logged. *)
Lemma hashing_exception_propagates :
  createNodes Sample.unreadable ∅ "app/build.gradle" None Sample.context
              Sample.initial
  = (Throw (Thrown "EACCES: permission denied"), Sample.initial).
Proof. reflexivity. Qed.

(** C5, amended. Once the hash is computed [createNodes] returns
    normally, whatever happens next; an exception raised inside the
    [try] block (report retrieval, report lookups, rule application) is
    printed with [console.error] and turned into the empty object,
    with [calculatedTargets] left as it was. *)
Theorem exceptions_caught_after_hashing (env : Collaborators)
    (targetsCache : gmap Hash ProjectTargets) (gradleFilePath : string)
    (options : option GradlePluginOptions) (context : CreateNodesContext)
    (s : State) (hash : Hash) :
  hashOf env gradleFilePath options context = Ok hash →
  ∃ r s',
    createNodes env targetsCache gradleFilePath options context s = (Ok r, s') ∧
    ∀ e s1,
      targetsCache !! hash = None →
      createNodes_try env gradleFilePath (dirname env gradleFilePath) hash
                      options context s = (Throw e, s1) →
      r = EmptyObject ∧
      console s' = console s ++ [e] ∧
      calculatedTargets s' = calculatedTargets s.
Proof.
  intros Hhash.
  destruct (targetsCache !! hash) as [cached |] eqn:Hcache.
  - rewrite (createNodes_hit _ _ _ _ _ _ hash cached) by done.
    eexists _, _. split; [done |]. by intros e s1 ?.
  - rewrite (createNodes_miss _ _ _ _ _ _ hash) by done.
    destruct (createNodes_try _ _ _ _ _ _ _) as [[r1 | e1] s1] eqn:Htry.
    + eexists _, _. split; [done |]. by intros e s2 _ ?.
    + eexists _, _. split; [done |]. intros e s2 _ ?. simplify_eq. simpl.
      apply createNodes_try_state in Htry as (_ & -> & ->). done.
Qed.

Lemma exceptions_caught_after_hashing_witness :
  ∃ r s',
    createNodes Sample.incomplete ∅ "app/build.gradle" None Sample.context
                Sample.initial = (Ok r, s') ∧
    ∀ e s1,
      (∅ : gmap Hash ProjectTargets) !! 3%N = None →
      createNodes_try Sample.incomplete "app/build.gradle"
                      (dirname Sample.incomplete "app/build.gradle") 3%N
                      None Sample.context Sample.initial = (Throw e, s1) →
      r = EmptyObject ∧
      console s' = console Sample.initial ++ [e] ∧
      calculatedTargets s' = calculatedTargets Sample.initial.
Proof.
  apply (exceptions_caught_after_hashing Sample.incomplete ∅
           "app/build.gradle" None Sample.context Sample.initial 3%N).
  reflexivity.
Defined.

(** The guarded block does throw on the sample whose report lacks the
    task map, and the call then yields the empty object. *)
Example incomplete_report_is_logged :
  createNodes Sample.incomplete ∅ "app/build.gradle" None Sample.context
              Sample.initial
  = (Ok EmptyObject,
     {| calculatedTargets := ∅;
        console := [TypeError "Cannot read properties of undefined (reading 'entries')"];
        reportCalls := 1 |}).
Proof. reflexivity. Qed.

(** *** Shape of the project descriptor *)

(** On a miss the descriptor has the fields [name], [targets] and
    [metadata]. *)
Lemma miss_descriptor_fields (env : Collaborators)
    (targetsCache : gmap Hash ProjectTargets) (gradleFilePath : string)
    (options : option GradlePluginOptions) (context : CreateNodesContext)
    (s s' : State) (hash : Hash) (root : string) (project : ProjectConfiguration) :
  hashOf env gradleFilePath options context = Ok hash →
  targetsCache !! hash = None →
  createNodes env targetsCache gradleFilePath options context s
  = (Ok (Projects root project), s') →
  root = dirname env gradleFilePath ∧
  ProjectConfiguration.fields project = ["name"; "targets"; "metadata"] ∧
  ProjectConfiguration.metadata project = {| technologies := ["gradle"] |}.
Proof.
  intros Hhash Hcache. rewrite (createNodes_miss _ _ _ _ _ _ hash) by done.
  destruct (createNodes_try _ _ _ _ _ _ _) as [[r1 | e1] s1] eqn:Htry;
    intros Hcall; simplify_eq.
  apply createNodes_try_state in Htry as (_ & _ & -> & Hgroups & Hmeta & _).
  unfold ProjectConfiguration.fields. by rewrite Hgroups.
Qed.

(** On a hit the descriptor is the spread of the cached bundle, which
    brings [targetGroups] along. *)
Lemma hit_descriptor_fields (env : Collaborators)
    (targetsCache : gmap Hash ProjectTargets) (gradleFilePath : string)
    (options : option GradlePluginOptions) (context : CreateNodesContext)
    (s s' : State) (hash : Hash) (cached : ProjectTargets)
    (root : string) (project : ProjectConfiguration) :
  hashOf env gradleFilePath options context = Ok hash →
  targetsCache !! hash = Some cached →
  createNodes env targetsCache gradleFilePath options context s
  = (Ok (Projects root project), s') →
  root = dirname env gradleFilePath ∧
  ProjectConfiguration.fields project
  = ["name"; "targets"; "targetGroups"; "metadata"] ∧
  ProjectConfiguration.metadata project = {| technologies := ["gradle"] |}.
Proof.
  intros Hhash Hcache. rewrite (createNodes_hit _ _ _ _ _ _ hash cached) by done.
  intros Hcall. by simplify_eq.
Qed.

(** C7. Evaluation on a cache hit: the descriptor returned for the
    sample project has the four fields [name], [targets],
    [targetGroups] and [metadata], one more than on the miss path
    ([miss_descriptor_fields]). *)
Theorem cache_hit_descriptor_has_targetGroups :
  match (createNodes Sample.env Sample.targetsCache "app/build.gradle" None
                     Sample.context Sample.initial).1 with
  | Ok (Projects _ project) => ProjectConfiguration.fields project
  | _ => []
  end = ["name"; "targets"; "targetGroups"; "metadata"].
Proof. reflexivity. Qed.

(** The same file on the miss path. *)
Example cache_miss_descriptor_sample :
  match (createNodes Sample.env ∅ "app/build.gradle" None
                     Sample.context Sample.initial).1 with
  | Ok (Projects _ project) => ProjectConfiguration.fields project
  | _ => []
  end = ["name"; "targets"; "metadata"].
Proof. vm_compute. reflexivity. Qed.

(** ** A run over many files *)

Section RunFacts.
Variable env : Collaborators.
Variable targetsCache : gmap Hash ProjectTargets.
Variable options : option GradlePluginOptions.
Variable context : CreateNodesContext.


End RunFacts.

(** *** The cache file *)

(** What has been through the file once goes through it unchanged:
    a bundle served from the cache is written back as it was read. *)
Lemma Json_value_idempotent {A : Type} (v : Js.value A) :
  Json.value (Json.value v) = Json.value v.
Proof.
  destruct v as [a | k |]; simpl; try done.
  case_decide as Hk; simpl; [| done]. by rewrite decide_True.
Qed.

Lemma Json_roundTrip_idempotent (bundle : ProjectTargets) :
  Json.roundTrip (Json.roundTrip bundle) = Json.roundTrip bundle.
Proof.
  unfold Json.roundTrip, Json.object. simpl. do 2 f_equal.
  rewrite <- map_fmap_compose. apply map_fmap_ext.
  intros k target _. unfold Json.target. simpl.
  by rewrite !Json_value_idempotent.
Qed.

(** What the file does not keep: for the tasks [toString] and
    [__proto__] the engine returns a target [toString] whose
    [dependsOn] is a function, and a prototype in the place of
    [Object.prototype]; the document has the target without
    [dependsOn] and no trace of the other. *)
Example cache_file_keeps_no_function :
  match createGradleTargets Sample.env
          [GradleTask.Build "Build" "toString"; GradleTask.Build "Build" "__proto__"]
          "app" None Sample.context (Some ∅) with
  | Ok (targets, _) =>
      Some (dependsOn <$> Js.props targets !! "toString",
            command <$> Js.proto targets,
            dependsOn <$> Js.props (Json.object targets) !! "toString",
            command <$> Js.proto (Json.object targets),
            Js.keys (Json.object targets))
  | Throw _ => None
  end = Some (Some (Js.Inherited "toString"), Some "../gradlew __proto__",
              Some Js.Undefined, None, {[ "toString" ]}).
Proof. vm_compute. reflexivity. Qed.



(** The run of the witness: [core] is inferred from the report, [app]
    is served from the cache, and both end up in [calculatedTargets]. *)
Example sample_run_keeps_both_projects :
  dom (calculatedTargets
         (createNodesForFiles Sample.env Sample.targetsCache
            ["core/build.gradle"; "app/build.gradle"] None Sample.context
            Sample.initial).2)
  = {[ 3%N; 4%N ]}.
Proof. vm_compute. reflexivity. Qed.

(** What the run recorded for [core], the miss: the name of the
    report, the target of [build] and the group [Build] with that one
    task. *)
Example sample_run_records_the_inferred_bundle :
  calculatedTargets Fixture.final !! 4%N
  = Some (ProjectTargets.Build "core"
            (ProjectConfiguration.targets Fixture.coreProject)
            {[ "Build" := ["build"] ]}).
Proof. vm_compute. reflexivity. Qed.

(** * Further properties *)

(** ** Target Rule Engine: groups, keys and exceptions *)

(** Loops whose bodies agree on the elements of the list agree. *)
Lemma for_of_ext {A S : Type} (body1 body2 : S → A → result S)
    (xs : list A) (s : S) :
  (∀ s' x, x ∈ xs → body1 s' x = body2 s' x) →
  for_of body1 xs s = for_of body2 xs s.
Proof.
  revert s. induction xs as [| x xs' IH]; intros s Hext; simpl; [done |].
  rewrite (Hext s x) by by left.
  destruct (body2 s x) as [s1 |]; simpl; [| done].
  apply IH. intros s' y Hy. apply Hext. by right.
Qed.

(** What a successful [push] leaves in the group table. *)
Lemma pushTargetGroup_Ok (targetGroups targetGroups' : TargetGroups)
    (task : GradleTask) :
  pushTargetGroup targetGroups task = Ok targetGroups' →
  targetGroups' =
  <[GradleTask.type task :=
      default [] (targetGroups !! GradleTask.type task) ++ [GradleTask.name task]]>
    targetGroups.
Proof.
  unfold pushTargetGroup, Js.get.
  destruct (targetGroups !! GradleTask.type task) as [names |] eqn:Hnames.
  - rewrite Hnames. intros Hpush. by simplify_eq.
  - destruct (Js.inherited (GradleTask.type task)); simpl.
    + by rewrite Hnames.
    + rewrite lookup_insert_eq. intros Hpush. simplify_eq.
      by rewrite insert_insert_eq.
Qed.

(** What a successful iteration has done. *)
Lemma createGradleTargets_body_Ok (env : Collaborators)
    (inputsMap : gmap string (list string)) (projectRoot : string)
    (options : option GradlePluginOptions)
    (outputDirs : option (gmap string string))
    (targets targets' : Targets) (targetGroups targetGroups' : TargetGroups)
    (task : GradleTask) :
  createGradleTargets_body env inputsMap projectRoot options outputDirs
                           (targets, targetGroups) task
  = Ok (targets', targetGroups') →
  ∃ dirs gradleFile,
    outputDirs = Some dirs ∧
    getGradleBinaryPath env () = Ok gradleFile ∧
    targets' = Js.set targets (targetName options task)
                 (gradleTarget (gradlePath env projectRoot) gradleFile inputsMap
                               (dirs !! GradleTask.name task) task) ∧
    pushTargetGroup targetGroups task = Ok targetGroups'.
Proof.
  unfold createGradleTargets_body.
  destruct outputDirs as [dirs |]; simpl; [| done].
  destruct (getGradleBinaryPath env ()) as [gradleFile |]; simpl; [| done].
  destruct (pushTargetGroup targetGroups task) as [groups |]; simpl; [| done].
  intros Hbody. simplify_eq. by exists dirs, gradleFile.
Qed.

Lemma groupOf_snoc (tasks : list GradleTask) (task : GradleTask)
    (taskType : string) :
  groupOf (tasks ++ [task]) taskType =
  if decide (GradleTask.type task = taskType)
  then Some (default [] (groupOf tasks taskType) ++ [GradleTask.name task])
  else groupOf tasks taskType.
Proof.
  unfold groupOf. rewrite filter_app, fmap_app.
  case_decide as Hty.
  - rewrite filter_cons_True by done. simpl.
    by destruct (GradleTask.name <$> filter _ tasks).
  - rewrite filter_cons_False by done. by rewrite filter_nil, app_nil_r.
Qed.

(** X1. Whenever the engine returns, the group of every task type is
    the list of the names of the tasks of that type, in the order of
    the task list, and a type no task has gets no group. The groups
    depend on nothing but the tasks. *)
Theorem target_groups_list_tasks_by_type (env : Collaborators)
    (tasks : list GradleTask) (projectRoot : string)
    (options : option GradlePluginOptions) (context : CreateNodesContext)
    (outputDirs : option (gmap string string))
    (targets : Targets) (targetGroups : TargetGroups) (taskType : string) :
  createGradleTargets env tasks projectRoot options context outputDirs
  = Ok (targets, targetGroups) →
  targetGroups !! taskType = groupOf tasks taskType.
Proof.
  unfold createGradleTargets. intros Hrun. revert taskType.
  apply (for_of_invariant
           (createGradleTargets_body env (createInputsMap context) projectRoot
                                     options outputDirs)
           (λ visited acc, ∀ ty, acc.2 !! ty = groupOf visited ty)
           tasks (Js.empty, ∅) (targets, targetGroups)); [done | | done].
  intros visited task [targets1 groups1] [targets2 groups2] Hinv _ Hbody ty.
  apply createGradleTargets_body_Ok in Hbody as (_ & _ & _ & _ & _ & Hpush).
  apply pushTargetGroup_Ok in Hpush as ->. simpl in *.
  rewrite groupOf_snoc, lookup_insert. case_decide as Hty.
  - subst ty. by rewrite Hinv.
  - apply Hinv.
Qed.

Lemma target_groups_list_tasks_by_type_witness :
  Fixture.targetGroups !! "Build" = groupOf Sample.tasks "Build".
Proof.
  apply (target_groups_list_tasks_by_type Sample.env Sample.tasks "app"
           (Some Sample.renaming) Sample.context (Some Sample.outputDirs)
           Fixture.targets Fixture.targetGroups "Build").
  vm_compute. reflexivity.
Defined.

(** X2. The engine returns exactly when the task list is empty, or the
    output directories are there, the Gradle wrapper is found and no
    task type names a member of [Object.prototype]. *)
Theorem engine_returns_iff (env : Collaborators) (tasks : list GradleTask)
    (projectRoot : string) (options : option GradlePluginOptions)
    (context : CreateNodesContext) (outputDirs : option (gmap string string)) :
  (∃ targets targetGroups,
     createGradleTargets env tasks projectRoot options context outputDirs
     = Ok (targets, targetGroups))
  ↔ tasks = [] ∨
    (is_Some outputDirs ∧
     (∃ gradleFile, getGradleBinaryPath env () = Ok gradleFile) ∧
     Forall groupable tasks).
Proof.
  split.
  - intros (targets & targetGroups & Hrun).
    destruct tasks as [| task tasks]; [by left | right].
    by eapply createGradleTargets_Ok_inv.
  - intros [-> | ([dirs ->] & [gradleFile Hfound] & Hall)].
    + by eexists _, _.
    + by eapply createGradleTargets_total.
Qed.

(** X3. On a non-empty task list the engine throws the error of the
    first thing that is missing: the [TypeError] of [outputDirs.get]
    when the output directories are [undefined], whatever else is
    missing, and otherwise the exception of [getGradleBinaryPath]. *)
Theorem engine_throws_what_is_missing (env : Collaborators)
    (tasks : list GradleTask) (projectRoot : string)
    (options : option GradlePluginOptions) (context : CreateNodesContext) :
  tasks ≠ [] →
  createGradleTargets env tasks projectRoot options context None
  = Throw (TypeError "Cannot read properties of undefined (reading 'get')") ∧
  ∀ dirs e,
    getGradleBinaryPath env () = Throw e →
    createGradleTargets env tasks projectRoot options context (Some dirs)
    = Throw e.
Proof.
  intros Hne. destruct tasks as [| task tasks]; [done |].
  split; [done |]. intros dirs e Hthrow.
  unfold createGradleTargets. simpl. by rewrite Hthrow.
Qed.

Lemma engine_throws_what_is_missing_witness :
  createGradleTargets Fixture.noWrapper Sample.tasks "app" None Sample.context None
  = Throw (TypeError "Cannot read properties of undefined (reading 'get')") ∧
  ∀ dirs e,
    getGradleBinaryPath Fixture.noWrapper () = Throw e →
    createGradleTargets Fixture.noWrapper Sample.tasks "app" None
                        Sample.context (Some dirs)
    = Throw e.
Proof.
  apply (engine_throws_what_is_missing Fixture.noWrapper Sample.tasks "app"
           None Sample.context).
  discriminate.
Defined.

(** Option sets that give every task the same target name give the
    same result. *)
Lemma createGradleTargets_options_ext (env : Collaborators)
    (tasks : list GradleTask) (projectRoot : string)
    (options1 options2 : option GradlePluginOptions)
    (context : CreateNodesContext) (outputDirs : option (gmap string string)) :
  (∀ task, task ∈ tasks → targetName options1 task = targetName options2 task) →
  createGradleTargets env tasks projectRoot options1 context outputDirs
  = createGradleTargets env tasks projectRoot options2 context outputDirs.
Proof.
  intros Hnames. unfold createGradleTargets. apply for_of_ext.
  intros [targets groups] task Hin. unfold createGradleTargets_body.
  by rewrite (Hnames task Hin).
Qed.

(** X4. Options that hold no [<name>TargetName] entry for any task of
    the list are ignored: the engine behaves as without options,
    results and exceptions alike. *)
Theorem options_for_other_names_are_ignored (env : Collaborators)
    (tasks : list GradleTask) (projectRoot : string)
    (options : GradlePluginOptions) (context : CreateNodesContext)
    (outputDirs : option (gmap string string)) :
  (∀ task, task ∈ tasks →
           options !! (GradleTask.name task +:+ "TargetName") = None) →
  createGradleTargets env tasks projectRoot (Some options) context outputDirs
  = createGradleTargets env tasks projectRoot None context outputDirs.
Proof.
  intros Hnone. apply createGradleTargets_options_ext.
  intros task Hin. unfold targetName. simpl. by rewrite (Hnone task Hin).
Qed.

Lemma options_for_other_names_are_ignored_witness :
  createGradleTargets Sample.env Sample.tasks "app" (Some Fixture.unrelated)
                      Sample.context (Some Sample.outputDirs)
  = createGradleTargets Sample.env Sample.tasks "app" None
                        Sample.context (Some Sample.outputDirs).
Proof.
  apply (options_for_other_names_are_ignored Sample.env Sample.tasks "app"
           Fixture.unrelated Sample.context (Some Sample.outputDirs)).
  intros task Hin. unfold Sample.tasks in Hin.
  repeat (apply elem_of_cons in Hin as [-> | Hin]; [reflexivity |]).
  by apply elem_of_nil in Hin.
Defined.

(** Every target of a result was built for one of the tasks. *)
Lemma createGradleTargets_Ok_assigned (env : Collaborators)
    (tasks : list GradleTask) (projectRoot : string)
    (options : option GradlePluginOptions) (context : CreateNodesContext)
    (outputDirs : option (gmap string string))
    (targets : Targets) (targetGroups : TargetGroups)
    (k : string) (target : TargetConfiguration) :
  createGradleTargets env tasks projectRoot options context outputDirs
  = Ok (targets, targetGroups) →
  Js.assigned targets k = Some target →
  ∃ dirs gradleFile task,
    outputDirs = Some dirs ∧
    getGradleBinaryPath env () = Ok gradleFile ∧
    task ∈ tasks ∧ targetName options task = k ∧
    target = targetFor env projectRoot context dirs gradleFile task.
Proof.
  intros Hrun Hk.
  destruct tasks as [| task0 tasks].
  { unfold createGradleTargets in Hrun. simpl in Hrun. simplify_eq.
    by rewrite assigned_empty in Hk. }
  destruct (createGradleTargets_Ok_inv env (task0 :: tasks) projectRoot options
              context outputDirs targets targetGroups Hrun)
    as ([dirs ->] & [gradleFile Hfound] & _); [done |].
  pose proof (createGradleTargets_assigned env projectRoot options context
                dirs gradleFile Hfound (task0 :: tasks) targets targetGroups)
    as Hspec.
  destruct (assigned_from_task env (task0 :: tasks) projectRoot options context
              dirs gradleFile targets k target)
    as (task & Hin & Hname & Htarget); [| done |].
  { intros k'. by apply Hspec. }
  by exists dirs, gradleFile, task.
Qed.

Lemma size_list_to_set_le (names : list string) :
  (size (list_to_set names : gset string) ≤ length names)%nat.
Proof.
  induction names as [| name names IH]; simpl.
  - done.
  - rewrite size_union_alt, size_singleton.
    assert (size (list_to_set names ∖ {[name]} : gset string)
            ≤ size (list_to_set names : gset string))%nat as Hsub.
    { apply subseteq_size, subseteq_difference_l. done. }
    lia.
Qed.

(** X5. Whenever the engine returns, the own keys of the targets are
    the resolved target names of the tasks, [__proto__] apart: there
    are never more targets than tasks, and no target under a name that
    no task resolves to. *)
Theorem target_keys_are_resolved_names (env : Collaborators)
    (tasks : list GradleTask) (projectRoot : string)
    (options : option GradlePluginOptions) (context : CreateNodesContext)
    (outputDirs : option (gmap string string))
    (targets : Targets) (targetGroups : TargetGroups) :
  createGradleTargets env tasks projectRoot options context outputDirs
  = Ok (targets, targetGroups) →
  Js.keys targets = list_to_set (targetName options <$> tasks) ∖ {["__proto__"]} ∧
  (size (Js.props targets) ≤ length tasks)%nat.
Proof.
  intros Hrun.
  assert (Js.keys targets
          = list_to_set (targetName options <$> tasks) ∖ {["__proto__"]})
    as Hkeys.
  { destruct tasks as [| task0 tasks].
    - unfold createGradleTargets in Hrun. simpl in Hrun. simplify_eq.
      unfold Js.keys. simpl. apply set_eq. intros k.
      rewrite elem_of_difference, dom_empty_L, !elem_of_empty. tauto.
    - destruct (createGradleTargets_Ok_inv env (task0 :: tasks) projectRoot
                  options context outputDirs targets targetGroups Hrun)
        as ([dirs ->] & [gradleFile Hfound] & _); [done |].
      by eapply createGradleTargets_keys. }
  split; [done |].
  rewrite <- size_dom. fold (Js.keys targets). rewrite Hkeys.
  transitivity (size (list_to_set (targetName options <$> tasks) : gset string)).
  - apply subseteq_size, subseteq_difference_l. done.
  - rewrite <- (length_fmap (targetName options) tasks).
    apply size_list_to_set_le.
Qed.

Lemma target_keys_are_resolved_names_witness :
  Js.keys Fixture.targets
  = list_to_set (targetName (Some Sample.renaming) <$> Sample.tasks)
      ∖ {["__proto__"]} ∧
  (size (Js.props Fixture.targets) ≤ length Sample.tasks)%nat.
Proof.
  apply (target_keys_are_resolved_names Sample.env Sample.tasks "app"
           (Some Sample.renaming) Sample.context (Some Sample.outputDirs)
           Fixture.targets Fixture.targetGroups).
  vm_compute. reflexivity.
Defined.

(** X6. Whenever the engine returns, a target has an array of inputs
    exactly when it has an array of dependencies, and its inputs are
    unset exactly when its dependencies are: the two tables have the
    same keys. *)
Theorem inputs_and_dependsOn_go_together (env : Collaborators)
    (tasks : list GradleTask) (projectRoot : string)
    (options : option GradlePluginOptions) (context : CreateNodesContext)
    (outputDirs : option (gmap string string))
    (targets : Targets) (targetGroups : TargetGroups)
    (k : string) (target : TargetConfiguration) :
  createGradleTargets env tasks projectRoot options context outputDirs
  = Ok (targets, targetGroups) →
  Js.assigned targets k = Some target →
  ((∃ names, inputs target = Js.Own names)
   ↔ (∃ names, dependsOn target = Js.Own names)) ∧
  (inputs target = Js.Undefined ↔ dependsOn target = Js.Undefined).
Proof.
  intros Hrun Hk.
  destruct (createGradleTargets_Ok_assigned _ _ _ _ _ _ _ _ _ _ Hrun Hk)
    as (dirs & gradleFile & task & _ & _ & _ & _ & ->).
  unfold targetFor. rewrite inputs_table, dependsOn_table.
  repeat case_decide; split; split; by eauto.
Qed.

Lemma inputs_and_dependsOn_go_together_witness :
  ((∃ names, inputs Fixture.compileTarget = Js.Own names)
   ↔ (∃ names, dependsOn Fixture.compileTarget = Js.Own names)) ∧
  (inputs Fixture.compileTarget = Js.Undefined
   ↔ dependsOn Fixture.compileTarget = Js.Undefined).
Proof.
  apply (inputs_and_dependsOn_go_together Sample.env Sample.tasks "app"
           (Some Sample.renaming) Sample.context (Some Sample.outputDirs)
           Fixture.targets Fixture.targetGroups "compile"
           Fixture.compileTarget).
  - vm_compute. reflexivity.
  - vm_compute. reflexivity.
Defined.

Lemma lastWriter_None (options : option GradlePluginOptions)
    (tasks : list GradleTask) (k : string) :
  Forall (λ task, targetName options task ≠ k) tasks →
  lastWriter options tasks k = None.
Proof.
  intros Hall. unfold lastWriter.
  replace (filter _ tasks) with (@nil GradleTask); [done |].
  induction Hall as [| task tasks Hne _ IH]; [done |].
  by rewrite filter_cons_False.
Qed.

(** X7. Renaming does not reach the dependency edges. When no task
    resolves to the target name [classes] (for instance because
    [classesTargetName] renames it), the target of a task named
    [build] or [test] still lists [classes] among its dependencies,
    and the result holds no target under that name. *)
Theorem renaming_leaves_classes_dependency_dangling (env : Collaborators)
    (earlier later : list GradleTask) (task : GradleTask)
    (projectRoot : string) (options : option GradlePluginOptions)
    (context : CreateNodesContext) (outputDirs : gmap string string)
    (gradleFile : string) :
  getGradleBinaryPath env () = Ok gradleFile →
  Forall groupable (earlier ++ task :: later) →
  GradleTask.name task = "build" ∨ GradleTask.name task = "test" →
  Forall (λ task', targetName options task' ≠ targetName options task) later →
  Forall (λ task', targetName options task' ≠ "classes")
         (earlier ++ task :: later) →
  ∃ targets targetGroups target dependencies,
    createGradleTargets env (earlier ++ task :: later) projectRoot options
                        context (Some outputDirs)
    = Ok (targets, targetGroups) ∧
    Js.assigned targets (targetName options task) = Some target ∧
    dependsOn target = Js.Own dependencies ∧
    "classes" ∈ dependencies ∧
    Js.assigned targets "classes" = None.
Proof.
  intros Hfound Hall Hname Hlater Hrenamed.
  destruct (createGradleTargets_result env (earlier ++ task :: later) projectRoot
              options context outputDirs gradleFile Hfound Hall)
    as (targets & targetGroups & Hrun & Hspec).
  exists targets, targetGroups,
    (targetFor env projectRoot context outputDirs gradleFile task).
  assert (∃ dependencies,
            dependsOn (targetFor env projectRoot context outputDirs gradleFile task)
            = Js.Own dependencies ∧ "classes" ∈ dependencies)
    as (dependencies & Hdeps & Hclasses).
  { unfold targetFor. rewrite dependsOn_table.
    destruct Hname as [-> | ->]; simpl; eexists; (split; [done |]).
    - right. by left.
    - by left. }
  exists dependencies. split_and!; [done | | done | done |].
  - by rewrite Hspec, lastWriter_middle.
  - by rewrite Hspec, lastWriter_None.
Qed.

Lemma renaming_leaves_classes_dependency_dangling_witness :
  ∃ targets targetGroups target dependencies,
    createGradleTargets Sample.env
      ([] ++ GradleTask.Build "Build" "build"
          :: [GradleTask.Build "Verification" "test";
              GradleTask.Build "Build" "classes"])
      "app" (Some Fixture.renamedClasses) Sample.context (Some Sample.outputDirs)
    = Ok (targets, targetGroups) ∧
    Js.assigned targets
      (targetName (Some Fixture.renamedClasses) (GradleTask.Build "Build" "build"))
    = Some target ∧
    dependsOn target = Js.Own dependencies ∧
    "classes" ∈ dependencies ∧
    Js.assigned targets "classes" = None.
Proof.
  apply (renaming_leaves_classes_dependency_dangling Sample.env []
           [GradleTask.Build "Verification" "test";
            GradleTask.Build "Build" "classes"]
           (GradleTask.Build "Build" "build") "app"
           (Some Fixture.renamedClasses) Sample.context Sample.outputDirs
           "gradlew").
  - reflexivity.
  - unfold groupable. repeat constructor.
  - by left.
  - repeat constructor; vm_compute; discriminate.
  - repeat constructor; vm_compute; discriminate.
Defined.

(** X8. The named inputs of the workspace only matter to tasks named
    [build] or [test]: on a task list without such names the engine
    behaves the same in every context. *)
Theorem context_only_matters_to_build_and_test (env : Collaborators)
    (tasks : list GradleTask) (projectRoot : string)
    (options : option GradlePluginOptions)
    (context1 context2 : CreateNodesContext)
    (outputDirs : option (gmap string string)) :
  (∀ task, task ∈ tasks →
           GradleTask.name task ≠ "build" ∧ GradleTask.name task ≠ "test") →
  createGradleTargets env tasks projectRoot options context1 outputDirs
  = createGradleTargets env tasks projectRoot options context2 outputDirs.
Proof.
  intros Hnames. unfold createGradleTargets. apply for_of_ext.
  intros [targets groups] task Hin.
  destruct (Hnames task Hin) as [Hbuild Htest].
  unfold createGradleTargets_body.
  destruct (Js.Map_get outputDirs (GradleTask.name task)) as [outputs |];
    simpl; [| done].
  destruct (getGradleBinaryPath env ()) as [gradleFile |]; simpl; [| done].
  replace (gradleTarget (gradlePath env projectRoot) gradleFile
             (createInputsMap context1) outputs task)
    with (gradleTarget (gradlePath env projectRoot) gradleFile
            (createInputsMap context2) outputs task); [done |].
  unfold gradleTarget. f_equal.
  unfold createInputsMap, Js.get. simpl.
  by rewrite !(lookup_insert_ne _ "build"), !(lookup_insert_ne _ "test") by done.
Qed.

Lemma context_only_matters_to_build_and_test_witness :
  createGradleTargets Sample.env
    [GradleTask.Build "Build" "classes"; GradleTask.Build "Build" "jar"]
    "app" None Sample.context (Some Sample.outputDirs)
  = createGradleTargets Sample.env
      [GradleTask.Build "Build" "classes"; GradleTask.Build "Build" "jar"]
      "app" None Sample.productionContext (Some Sample.outputDirs).
Proof.
  apply (context_only_matters_to_build_and_test Sample.env
           [GradleTask.Build "Build" "classes"; GradleTask.Build "Build" "jar"]
           "app" None Sample.context Sample.productionContext
           (Some Sample.outputDirs)).
  intros task Hin.
  repeat (apply elem_of_cons in Hin as [-> | Hin]; [by split |]).
  by apply elem_of_nil in Hin.
Defined.

(** ** Node Emitter: what one call does *)

Section CallFacts.
Variable env : Collaborators.
Variable targetsCache : gmap Hash ProjectTargets.
Variable options : option GradlePluginOptions.
Variable context : CreateNodesContext.
Implicit Types (gradleFilePath projectRoot : string) (hash : Hash) (s : State).

(** The guarded block returns a project or nothing, never the empty
    object. *)
Lemma createNodes_try_result gradleFilePath projectRoot hash s r s' :
  createNodes_try env gradleFilePath projectRoot hash options context s
  = (Ok r, s') →
  r = NoResult ∨ ∃ project, r = Projects projectRoot project.
Proof.
  unfold createNodes_try.
  destruct (getGradleReport env ()) as [report |]; [| done].
  destruct (_ ≫= (gradleProjectToProjectName report !!.))
    as [[| c projectName] |]; [intros; simplify_eq; by left | |
                               intros; simplify_eq; by left].
  destruct (_ ≫= _) as [[targets targetGroups] |]; [| done].
  intros. simplify_eq. right. by eexists.
Qed.

(** The miss path on a file the report knows as a named project. *)
Lemma createNodes_named gradleFilePath hash s report gradleProject projectName :
  hashOf env gradleFilePath options context = Ok hash →
  targetsCache !! hash = None →
  getGradleReport env () = Ok report →
  gradleFileToGradleProjectMap report !! gradleFilePath = Some gradleProject →
  gradleProjectToProjectName report !! gradleProject = Some projectName →
  projectName ≠ EmptyString →
  createNodes env targetsCache gradleFilePath options context s =
  match
    entries ← match gradleProjectToTasksTypeMap report !! gradleProject with
              | Some m => Ok m
              | None => Throw (TypeError "Cannot read properties of undefined (reading 'entries')")
              end;
    createGradleTargets env
      ((λ '(taskName, taskType), GradleTask.Build taskType taskName) <$> entries)
      (dirname env gradleFilePath) options context
      (gradleFileToOutputDirsMap report !! gradleFilePath)
  with
  | Throw e =>
      (Ok EmptyObject,
       {| calculatedTargets := calculatedTargets s;
          console := console s ++ [e];
          reportCalls := S (reportCalls s) |})
  | Ok (targets, targetGroups) =>
      (Ok (Projects (dirname env gradleFilePath)
             (ProjectConfiguration.Build projectName targets None
                {| technologies := ["gradle"] |})),
       {| calculatedTargets :=
            <[hash := ProjectTargets.Build projectName targets targetGroups]>
              (calculatedTargets s);
          console := console s;
          reportCalls := S (reportCalls s) |})
  end.
Proof.
  intros Hhash Hcache Hreport Hproject Hname Hnonempty.
  rewrite (createNodes_miss _ _ _ _ _ _ hash) by done.
  unfold createNodes_try. rewrite Hreport, Hproject. simpl. rewrite Hname.
  destruct projectName as [| c projectName]; [done |].
  by destruct (_ ≫= _) as [[targets targetGroups] |].
Qed.

End CallFacts.

(** X9. A call returns the empty object exactly when it has printed an
    exception with [console.error]; it then prints exactly one, and a
    call that returns anything else prints nothing. *)
Theorem empty_object_iff_error_logged (env : Collaborators)
    (targetsCache : gmap Hash ProjectTargets) (gradleFilePath : string)
    (options : option GradlePluginOptions) (context : CreateNodesContext)
    (s s' : State) (r : result CreateNodesResult) :
  createNodes env targetsCache gradleFilePath options context s = (r, s') →
  (r = Ok EmptyObject ∧ ∃ e, console s' = console s ++ [e]) ∨
  (r ≠ Ok EmptyObject ∧ console s' = console s).
Proof.
  intros Hcall.
  destruct (hashOf env gradleFilePath options context) as [hash | e] eqn:Hhash.
  - destruct (targetsCache !! hash) as [cached |] eqn:Hcache.
    + rewrite (createNodes_hit _ _ _ _ _ _ hash cached) in Hcall by done.
      simplify_eq. by right.
    + rewrite (createNodes_miss _ _ _ _ _ _ hash) in Hcall by done.
      destruct (createNodes_try _ _ _ _ _ _ _) as [[r1 | e1] s1] eqn:Htry.
      * pose proof Htry as Hstate.
        apply createNodes_try_state in Hstate as (_ & Hconsole & _).
        apply createNodes_try_result in Htry as [-> | [project ->]];
          simplify_eq; by right.
      * apply createNodes_try_state in Htry as (_ & Hconsole & _).
        simplify_eq. left. simpl. rewrite Hconsole. eauto.
  - rewrite (createNodes_hash_throw _ _ _ _ _ _ e) in Hcall by done.
    simplify_eq. by right.
Qed.

Lemma empty_object_iff_error_logged_witness :
  ((createNodes Sample.incomplete ∅ "app/build.gradle" None Sample.context
                freshState).1 = Ok EmptyObject ∧
   ∃ e, console (createNodes Sample.incomplete ∅ "app/build.gradle" None
                             Sample.context freshState).2
        = console freshState ++ [e]) ∨
  ((createNodes Sample.incomplete ∅ "app/build.gradle" None Sample.context
                freshState).1 ≠ Ok EmptyObject ∧
   console (createNodes Sample.incomplete ∅ "app/build.gradle" None
                        Sample.context freshState).2
   = console freshState).
Proof.
  apply (empty_object_iff_error_logged Sample.incomplete ∅ "app/build.gradle"
           None Sample.context freshState).
  reflexivity.
Defined.

(** X10. A call asks for the Gradle report once when the hash of the
    file is computed and missing from the cache, whatever comes of it,
    and not at all otherwise. *)
Theorem report_requested_once_per_miss (env : Collaborators)
    (targetsCache : gmap Hash ProjectTargets) (gradleFilePath : string)
    (options : option GradlePluginOptions) (context : CreateNodesContext)
    (s s' : State) (r : result CreateNodesResult) :
  createNodes env targetsCache gradleFilePath options context s = (r, s') →
  reportCalls s' =
  match hashOf env gradleFilePath options context with
  | Ok hash =>
      match targetsCache !! hash with
      | Some _ => reportCalls s
      | None => S (reportCalls s)
      end
  | Throw _ => reportCalls s
  end.
Proof.
  intros Hcall.
  destruct (hashOf env gradleFilePath options context) as [hash | e] eqn:Hhash.
  - destruct (targetsCache !! hash) as [cached |] eqn:Hcache.
    + rewrite (createNodes_hit _ _ _ _ _ _ hash cached) in Hcall by done.
      by simplify_eq.
    + rewrite (createNodes_miss _ _ _ _ _ _ hash) in Hcall by done.
      destruct (createNodes_try _ _ _ _ _ _ _) as [[r1 | e1] s1] eqn:Htry;
        apply createNodes_try_state in Htry as (Hcalls & _ & _);
        by simplify_eq.
  - rewrite (createNodes_hash_throw _ _ _ _ _ _ e) in Hcall by done.
    by simplify_eq.
Qed.

Lemma report_requested_once_per_miss_witness :
  reportCalls (createNodes Sample.env ∅ "lib/build.gradle" None Sample.context
                           freshState).2 =
  match hashOf Sample.env "lib/build.gradle" None Sample.context with
  | Ok hash =>
      match (∅ : gmap Hash ProjectTargets) !! hash with
      | Some _ => reportCalls freshState
      | None => S (reportCalls freshState)
      end
  | Throw _ => reportCalls freshState
  end.
Proof.
  apply (report_requested_once_per_miss Sample.env ∅ "lib/build.gradle" None
           Sample.context freshState _
           (createNodes Sample.env ∅ "lib/build.gradle" None Sample.context
                        freshState).1).
  reflexivity.
Defined.

(** X11. A build file that the report does not map to a project with a
    non-empty name is no project: on a miss the call returns
    [undefined], prints nothing and leaves [calculatedTargets] alone.
    This covers a file missing from the report, a project missing from
    the name map, and a project whose name is the empty string. *)
Theorem unknown_file_yields_nothing (env : Collaborators)
    (targetsCache : gmap Hash ProjectTargets) (gradleFilePath : string)
    (options : option GradlePluginOptions) (context : CreateNodesContext)
    (s : State) (hash : Hash) (report : GradleReport) :
  hashOf env gradleFilePath options context = Ok hash →
  targetsCache !! hash = None →
  getGradleReport env () = Ok report →
  (∀ gradleProject projectName,
     gradleFileToGradleProjectMap report !! gradleFilePath = Some gradleProject →
     gradleProjectToProjectName report !! gradleProject = Some projectName →
     projectName = EmptyString) →
  createNodes env targetsCache gradleFilePath options context s =
  (Ok NoResult,
   {| calculatedTargets := calculatedTargets s;
      console := console s;
      reportCalls := S (reportCalls s) |}).
Proof.
  intros Hhash Hcache Hreport Hunknown.
  rewrite (createNodes_miss _ _ _ _ _ _ hash) by done.
  unfold createNodes_try. rewrite Hreport.
  destruct (gradleFileToGradleProjectMap report !! gradleFilePath)
    as [gradleProject |] eqn:Hproject; simpl; [| done].
  destruct (gradleProjectToProjectName report !! gradleProject)
    as [projectName |] eqn:Hname; [| done].
  by rewrite (Hunknown gradleProject projectName).
Qed.

Lemma unknown_file_yields_nothing_witness :
  createNodes Sample.env ∅ "lib/build.gradle" None Sample.context freshState =
  (Ok NoResult,
   {| calculatedTargets := calculatedTargets freshState;
      console := console freshState;
      reportCalls := S (reportCalls freshState) |}).
Proof.
  apply (unknown_file_yields_nothing Sample.env ∅ "lib/build.gradle" None
           Sample.context freshState 1%N Sample.report).
  - reflexivity.
  - reflexivity.
  - reflexivity.
  - intros gradleProject projectName Hproject. by vm_compute in Hproject.
Defined.

(** X12. When the Gradle report cannot be produced, a miss yields the
    empty object: the exception of [getGradleReport] is printed as it
    is, and [calculatedTargets] is left alone. *)
Theorem report_exception_is_logged (env : Collaborators)
    (targetsCache : gmap Hash ProjectTargets) (gradleFilePath : string)
    (options : option GradlePluginOptions) (context : CreateNodesContext)
    (s : State) (hash : Hash) (e : exn) :
  hashOf env gradleFilePath options context = Ok hash →
  targetsCache !! hash = None →
  getGradleReport env () = Throw e →
  createNodes env targetsCache gradleFilePath options context s =
  (Ok EmptyObject,
   {| calculatedTargets := calculatedTargets s;
      console := console s ++ [e];
      reportCalls := S (reportCalls s) |}).
Proof.
  intros Hhash Hcache Hreport.
  rewrite (createNodes_miss _ _ _ _ _ _ hash) by done.
  unfold createNodes_try. by rewrite Hreport.
Qed.

Lemma report_exception_is_logged_witness :
  createNodes Fixture.noReport ∅ "app/build.gradle" None Sample.context
              freshState =
  (Ok EmptyObject,
   {| calculatedTargets := calculatedTargets freshState;
      console := console freshState ++ [Thrown "gradle: command not found"];
      reportCalls := S (reportCalls freshState) |}).
Proof.
  apply (report_exception_is_logged Fixture.noReport ∅ "app/build.gradle" None
           Sample.context freshState 3%N (Thrown "gradle: command not found")).
  - reflexivity.
  - reflexivity.
  - reflexivity.
Defined.

(** X13. A named project for which the report has no task map is not
    inferred: the [TypeError] of [tasksTypeMap.entries()] is printed
    and the call yields the empty object. *)
Theorem missing_task_map_is_logged (env : Collaborators)
    (targetsCache : gmap Hash ProjectTargets) (gradleFilePath : string)
    (options : option GradlePluginOptions) (context : CreateNodesContext)
    (s : State) (hash : Hash) (report : GradleReport)
    (gradleProject projectName : string) :
  hashOf env gradleFilePath options context = Ok hash →
  targetsCache !! hash = None →
  getGradleReport env () = Ok report →
  gradleFileToGradleProjectMap report !! gradleFilePath = Some gradleProject →
  gradleProjectToProjectName report !! gradleProject = Some projectName →
  projectName ≠ EmptyString →
  gradleProjectToTasksTypeMap report !! gradleProject = None →
  createNodes env targetsCache gradleFilePath options context s =
  (Ok EmptyObject,
   {| calculatedTargets := calculatedTargets s;
      console :=
        console s
        ++ [TypeError "Cannot read properties of undefined (reading 'entries')"];
      reportCalls := S (reportCalls s) |}).
Proof.
  intros Hhash Hcache Hreport Hproject Hname Hnonempty Htasks.
  rewrite (createNodes_named env targetsCache options context gradleFilePath
             hash s report gradleProject projectName) by done.
  by rewrite Htasks.
Qed.

Lemma missing_task_map_is_logged_witness :
  createNodes Sample.incomplete ∅ "app/build.gradle" None Sample.context
              freshState =
  (Ok EmptyObject,
   {| calculatedTargets := calculatedTargets freshState;
      console :=
        console freshState
        ++ [TypeError "Cannot read properties of undefined (reading 'entries')"];
      reportCalls := S (reportCalls freshState) |}).
Proof.
  apply (missing_task_map_is_logged Sample.incomplete ∅ "app/build.gradle" None
           Sample.context freshState 3%N Sample.reportWithoutTasks
           ":app" "app").
  - reflexivity.
  - reflexivity.
  - reflexivity.
  - reflexivity.
  - reflexivity.
  - discriminate.
  - reflexivity.
Defined.

(** X14. Without a Gradle wrapper a named project that has at least one
    task, and output directories, is not inferred: the exception of
    [getGradleBinaryPath] is printed as it is, the call yields the
    empty object and stores nothing. *)
Theorem wrapper_exception_is_logged (env : Collaborators)
    (targetsCache : gmap Hash ProjectTargets) (gradleFilePath : string)
    (options : option GradlePluginOptions) (context : CreateNodesContext)
    (s : State) (hash : Hash) (report : GradleReport)
    (gradleProject projectName : string)
    (entries : list (string * string)) (outputDirs : gmap string string)
    (e : exn) :
  hashOf env gradleFilePath options context = Ok hash →
  targetsCache !! hash = None →
  getGradleReport env () = Ok report →
  gradleFileToGradleProjectMap report !! gradleFilePath = Some gradleProject →
  gradleProjectToProjectName report !! gradleProject = Some projectName →
  projectName ≠ EmptyString →
  gradleProjectToTasksTypeMap report !! gradleProject = Some entries →
  entries ≠ [] →
  gradleFileToOutputDirsMap report !! gradleFilePath = Some outputDirs →
  getGradleBinaryPath env () = Throw e →
  createNodes env targetsCache gradleFilePath options context s =
  (Ok EmptyObject,
   {| calculatedTargets := calculatedTargets s;
      console := console s ++ [e];
      reportCalls := S (reportCalls s) |}).
Proof.
  intros Hhash Hcache Hreport Hproject Hname Hnonempty Htasks Hentries Hdirs
    Hwrapper.
  rewrite (createNodes_named env targetsCache options context gradleFilePath
             hash s report gradleProject projectName) by done.
  rewrite Htasks, Hdirs. simpl.
  destruct entries as [| [taskName taskType] entries]; [done |].
  unfold createGradleTargets. simpl. by rewrite Hwrapper.
Qed.

Lemma wrapper_exception_is_logged_witness :
  createNodes Fixture.noWrapper ∅ "app/build.gradle" None Sample.context
              freshState =
  (Ok EmptyObject,
   {| calculatedTargets := calculatedTargets freshState;
      console := console freshState ++ [Thrown "Gradle is not setup"];
      reportCalls := S (reportCalls freshState) |}).
Proof.
  apply (wrapper_exception_is_logged Fixture.noWrapper ∅ "app/build.gradle"
           None Sample.context freshState 3%N Sample.report ":app" "app"
           [("build", "Build"); ("test", "Verification"); ("classes", "Build")]
           Sample.outputDirs (Thrown "Gradle is not setup")).
  - reflexivity.
  - reflexivity.
  - reflexivity.
  - reflexivity.
  - reflexivity.
  - discriminate.
  - reflexivity.
  - discriminate.
  - reflexivity.
  - reflexivity.
Defined.

(** X15. A named project whose task map is empty is inferred with no
    targets and no groups, also without a Gradle wrapper and without
    output directories: neither is looked at before the first task. *)
Theorem project_without_tasks_is_inferred (env : Collaborators)
    (targetsCache : gmap Hash ProjectTargets) (gradleFilePath : string)
    (options : option GradlePluginOptions) (context : CreateNodesContext)
    (s : State) (hash : Hash) (report : GradleReport)
    (gradleProject projectName : string) :
  hashOf env gradleFilePath options context = Ok hash →
  targetsCache !! hash = None →
  getGradleReport env () = Ok report →
  gradleFileToGradleProjectMap report !! gradleFilePath = Some gradleProject →
  gradleProjectToProjectName report !! gradleProject = Some projectName →
  projectName ≠ EmptyString →
  gradleProjectToTasksTypeMap report !! gradleProject = Some [] →
  createNodes env targetsCache gradleFilePath options context s =
  (Ok (Projects (dirname env gradleFilePath)
         (ProjectConfiguration.Build projectName Js.empty None
            {| technologies := ["gradle"] |})),
   {| calculatedTargets :=
        <[hash := ProjectTargets.Build projectName Js.empty ∅]>
          (calculatedTargets s);
      console := console s;
      reportCalls := S (reportCalls s) |}).
Proof.
  intros Hhash Hcache Hreport Hproject Hname Hnonempty Htasks.
  rewrite (createNodes_named env targetsCache options context gradleFilePath
             hash s report gradleProject projectName) by done.
  by rewrite Htasks.
Qed.

Lemma project_without_tasks_is_inferred_witness :
  createNodes Fixture.bare ∅ "app/build.gradle" None Sample.context freshState =
  (Ok (Projects (dirname Fixture.bare "app/build.gradle")
         (ProjectConfiguration.Build "app" Js.empty None
            {| technologies := ["gradle"] |})),
   {| calculatedTargets :=
        <[3%N := ProjectTargets.Build "app" Js.empty ∅]>
          (calculatedTargets freshState);
      console := console freshState;
      reportCalls := S (reportCalls freshState) |}).
Proof.
  apply (project_without_tasks_is_inferred Fixture.bare ∅ "app/build.gradle"
           None Sample.context freshState 3%N Fixture.reportWithoutAnyTask
           ":app" "app").
  - reflexivity.
  - reflexivity.
  - reflexivity.
  - reflexivity.
  - reflexivity.
  - discriminate.
  - reflexivity.
Defined.

(** ** Node Emitter: calls and the state *)

(** A call from any state, in terms of the call from a fresh state. *)
Lemma createNodes_frame (env : Collaborators)
    (targetsCache : gmap Hash ProjectTargets) (gradleFilePath : string)
    (options : option GradlePluginOptions) (context : CreateNodesContext)
    (s : State) :
  createNodes env targetsCache gradleFilePath options context s =
  let fresh :=
    createNodes env targetsCache gradleFilePath options context freshState in
  (fresh.1,
   {| calculatedTargets :=
        record (written env targetsCache options context gradleFilePath)
               (calculatedTargets s);
      console := console s ++ console fresh.2;
      reportCalls := reportCalls s + reportCalls fresh.2 |}).
Proof.
  unfold written, hashOf, createNodes.
  destruct (calculateHashForCreateNodes env _ _ _) as [hash | e]; simpl.
  - destruct (targetsCache !! hash) as [cached |]; simpl.
    + rewrite lookup_insert_eq. simpl.
      by rewrite app_nil_r, Nat.add_0_r.
    + unfold createNodes_try.
      destruct (getGradleReport env ()) as [report | e]; simpl.
      * destruct (_ ≫= (gradleProjectToProjectName report !!.))
          as [[| c projectName] |]; simpl;
          rewrite ?lookup_empty; simpl;
          rewrite ?app_nil_r, ?Nat.add_1_r; try done.
        destruct (_ ≫= _) as [[targets targetGroups] | e]; simpl.
        -- rewrite lookup_insert_eq. simpl.
           by rewrite app_nil_r, Nat.add_1_r.
        -- rewrite lookup_empty. simpl. by rewrite Nat.add_1_r.
      * rewrite lookup_empty. simpl. by rewrite Nat.add_1_r.
  - destruct s. simpl. by rewrite app_nil_r, Nat.add_0_r.
Qed.

(** X16. What a call returns and what it does never depends on the
    state it finds: from any state it returns what it returns from a
    fresh one, appends to the console what it prints there, asks for
    the report as often, and records the same entry, if any, in
    [calculatedTargets]. In particular [calculatedTargets] is written
    and never read. *)
Theorem call_is_independent_of_state (env : Collaborators)
    (targetsCache : gmap Hash ProjectTargets) (gradleFilePath : string)
    (options : option GradlePluginOptions) (context : CreateNodesContext)
    (s : State) :
  createNodes env targetsCache gradleFilePath options context s =
  let fresh :=
    createNodes env targetsCache gradleFilePath options context freshState in
  (fresh.1,
   {| calculatedTargets :=
        record (written env targetsCache options context gradleFilePath)
               (calculatedTargets s);
      console := console s ++ console fresh.2;
      reportCalls := reportCalls s + reportCalls fresh.2 |}).
Proof. apply createNodes_frame. Qed.

(** The entry a call records. *)
Lemma createNodes_record (env : Collaborators)
    (targetsCache : gmap Hash ProjectTargets) (gradleFilePath : string)
    (options : option GradlePluginOptions) (context : CreateNodesContext)
    (s : State) :
  calculatedTargets
    (createNodes env targetsCache gradleFilePath options context s).2
  = record (written env targetsCache options context gradleFilePath)
           (calculatedTargets s).
Proof. by rewrite createNodes_frame. Qed.

(** Option sets on which the engine agrees for every task list, and
    which hash alike, make the same call. *)
Lemma createNodes_options_ext (env : Collaborators)
    (targetsCache : gmap Hash ProjectTargets) (gradleFilePath : string)
    (options1 options2 : option GradlePluginOptions)
    (context : CreateNodesContext) (s : State) :
  default ∅ options1 = default ∅ options2 →
  (∀ task, targetName options1 task = targetName options2 task) →
  createNodes env targetsCache gradleFilePath options1 context s
  = createNodes env targetsCache gradleFilePath options2 context s.
Proof.
  intros Hdefault Hnames. unfold createNodes. rewrite Hdefault.
  destruct (calculateHashForCreateNodes env _ _ _) as [hash | e]; [| done].
  destruct (targetsCache !! hash) as [cached |]; [done |].
  unfold createNodes_try.
  destruct (getGradleReport env ()) as [report | e]; [| done].
  destruct (_ ≫= (gradleProjectToProjectName report !!.))
    as [[| c projectName] |]; [done | | done].
  destruct (_ ≫= (gradleProjectToTasksTypeMap report !!.)) as [entries |];
    simpl; [| done].
  by rewrite (createGradleTargets_options_ext env _ _ options1 options2).
Qed.

(** X17. Leaving the plugin options out is the same as passing the
    empty object: the same hash, the same target names, the same
    outcome. *)
Theorem undefined_options_behave_as_empty (env : Collaborators)
    (targetsCache : gmap Hash ProjectTargets) (gradleFilePath : string)
    (context : CreateNodesContext) (s : State) :
  createNodes env targetsCache gradleFilePath None context s
  = createNodes env targetsCache gradleFilePath (Some ∅) context s.
Proof.
  apply createNodes_options_ext; [done |].
  intros task. unfold targetName. simpl. by rewrite ?lookup_empty.
Qed.

(** X18. Calling [createNodes] again on the same file leaves
    [calculatedTargets] as the first call left it, and returns the
    same value; only the report is asked for again on a miss. *)
Theorem repeated_call_records_nothing_new (env : Collaborators)
    (targetsCache : gmap Hash ProjectTargets) (gradleFilePath : string)
    (options : option GradlePluginOptions) (context : CreateNodesContext)
    (s : State) :
  let first := createNodes env targetsCache gradleFilePath options context s in
  let second :=
    createNodes env targetsCache gradleFilePath options context first.2 in
  second.1 = first.1 ∧
  calculatedTargets second.2 = calculatedTargets first.2.
Proof.
  intros first second. unfold second.
  rewrite (createNodes_frame env targetsCache gradleFilePath options context
             first.2).
  unfold first.
  rewrite (createNodes_frame env targetsCache gradleFilePath options context s).
  simpl. split; [done |].
  destruct (written env targetsCache options context gradleFilePath)
    as [[hash bundle] |]; simpl; [| done].
  apply insert_insert_eq.
Qed.

(** ** Runs: which entries [calculatedTargets] ends up with *)

Section RunKeys.
Variable env : Collaborators.
Variable targetsCache : gmap Hash ProjectTargets.
Variable options : option GradlePluginOptions.
Variable context : CreateNodesContext.

(** One call adds the hash of its file when it returns a project, and
    nothing otherwise. *)
Lemma createNodes_dom gradleFilePath s r s' hash :
  createNodes env targetsCache gradleFilePath options context s = (r, s') →
  hash ∈ dom (calculatedTargets s') ↔
  hash ∈ dom (calculatedTargets s) ∨
  ((∃ root project, r = Ok (Projects root project)) ∧
   hashOf env gradleFilePath options context = Ok hash).
Proof.
  intros Hcall.
  destruct (hashOf env gradleFilePath options context) as [hash1 | e] eqn:Hhash.
  - destruct (targetsCache !! hash1) as [cached |] eqn:Hcache.
    + rewrite (createNodes_hit _ _ _ _ _ _ hash1 cached) in Hcall by done.
      simplify_eq. simpl. rewrite dom_insert_L, elem_of_union, elem_of_singleton.
      split.
      * intros [-> | ?]; [right | by left]. split; [by eexists _, _ | done].
      * intros [? | [_ ?]]; [by right | left; by simplify_eq].
    + rewrite (createNodes_miss _ _ _ _ _ _ hash1) in Hcall by done.
      destruct (createNodes_try _ _ _ _ _ _ _) as [[r1 | e1] s1] eqn:Htry.
      * pose proof Htry as Hstate.
        apply createNodes_try_state in Hstate as (_ & _ & Hcalc).
        apply createNodes_try_result in Htry as [-> | [project ->]];
          simplify_eq; simpl in *.
        -- rewrite Hcalc. split; [by left |].
           by intros [? | [(? & ? & ?) _]].
        -- destruct Hcalc as (_ & _ & _ & groups & ->).
           rewrite dom_insert_L, elem_of_union, elem_of_singleton.
           split.
           ++ intros [-> | ?]; [right | by left].
              split; [by eexists _, _ | done].
           ++ intros [? | [_ ?]]; [by right | left; by simplify_eq].
      * apply createNodes_try_state in Htry as (_ & _ & Hcalc).
        simplify_eq. simpl in *. rewrite Hcalc. split; [by left |].
        by intros [? | [(? & ? & ?) _]].
  - rewrite (createNodes_hash_throw _ _ _ _ _ _ e) in Hcall by done.
    simplify_eq. split; [by left |]. by intros [? | [_ ?]].
Qed.

Lemma createNodesForFiles_dom files s rs s' hash :
  createNodesForFiles env targetsCache files options context s = (rs, s') →
  hash ∈ dom (calculatedTargets s') ↔
  hash ∈ dom (calculatedTargets s) ∨
  ∃ i file root project,
    files !! i = Some file ∧
    rs !! i = Some (Ok (Projects root project)) ∧
    hashOf env file options context = Ok hash.
Proof.
  revert s rs. induction files as [| file files IH]; intros s rs Hrun.
  - simpl in Hrun. simplify_eq. split; [by left |].
    intros [? | (i & ? & ? & ? & Hfile & _)]; [done |].
    by rewrite lookup_nil in Hfile.
  - simpl in Hrun.
    destruct (createNodes env targetsCache file options context s)
      as [r s1] eqn:Hcall.
    destruct (createNodesForFiles env targetsCache files options context s1)
      as [rs1 s2] eqn:Hrest.
    simplify_eq.
    rewrite (IH s1 rs1 Hrest), (createNodes_dom file s r s1 hash Hcall).
    split.
    + intros [[? | [(root & project & ->) Hhash]] | (i & f & root & project & ? & ? & ?)].
      * by left.
      * right. by exists 0, file, root, project.
      * right. by exists (S i), f, root, project.
    + intros [? | (i & f & root & project & Hfile & Hresult & Hhash)].
      * left. by left.
      * destruct i as [| i]; simpl in *; simplify_eq.
        -- left. right. split; [by eexists _, _ | done].
        -- right. by exists i, f, root, project.
Qed.

(** [calculatedTargets] after a run: the entries of the files, recorded
    in the order of the list. *)
Lemma createNodesForFiles_record files s :
  calculatedTargets
    (createNodesForFiles env targetsCache files options context s).2
  = foldl (λ targets file,
             record (written env targetsCache options context file) targets)
          (calculatedTargets s) files.
Proof.
  revert s. induction files as [| file files IH]; intros s; simpl; [done |].
  pose proof (createNodes_record env targetsCache file options context s)
    as Hrecord.
  destruct (createNodes env targetsCache file options context s) as [r s1].
  specialize (IH s1).
  destruct (createNodesForFiles env targetsCache files options context s1)
    as [rs1 s2].
  simpl in *. by rewrite IH, Hrecord.
Qed.

(** An entry is recorded under the hash of the file. *)
Lemma written_hashed file hash bundle :
  written env targetsCache options context file = Some (hash, bundle) →
  hashed env options context file = Some hash.
Proof.
  unfold written, hashed.
  destruct (hashOf env file options context) as [hash1 |]; [| done].
  destruct (_ !! hash1); simpl; intros; by simplify_eq.
Qed.

(** Recording entries of distinct hashes in any order gives the same
    map. *)
Lemma foldl_record_Permutation files1 files2 targets :
  files1 ≡ₚ files2 →
  NoDup (omap (hashed env options context) files1) →
  foldl (λ targets file,
           record (written env targetsCache options context file) targets)
        targets files1
  = foldl (λ targets file,
             record (written env targetsCache options context file) targets)
          targets files2.
Proof.
  intros Hperm. revert targets.
  induction Hperm as [| file files1 files2 _ IH | file1 file2 files
                      | files1 files2 files3 Hperm12 IH12 _ IH23];
    intros targets Hnodup.
  - done.
  - simpl. apply IH. simpl in Hnodup.
    destruct (hashed env options context file); [| done].
    by apply NoDup_cons in Hnodup as [_ ?].
  - simpl. f_equal.
    destruct (written env targetsCache options context file1)
      as [[hash1 bundle1] |] eqn:Hwritten1; [| done].
    destruct (written env targetsCache options context file2)
      as [[hash2 bundle2] |] eqn:Hwritten2; [| done].
    simpl. apply insert_insert_ne.
    apply written_hashed in Hwritten1, Hwritten2. simpl in Hnodup.
    rewrite Hwritten1, Hwritten2 in Hnodup.
    apply NoDup_cons in Hnodup as [Hnotin _].
    intros ->. apply Hnotin. by left.
  - rewrite IH12 by done. apply IH23. by rewrite <- Hperm12.
Qed.

End RunKeys.

(** X19. After a run, the hashes that [calculatedTargets] holds are the
    ones it held before and the hashes of the files for which a project
    was returned: nothing is ever removed, and a file that returned the
    empty object, [undefined] or an exception adds nothing. *)
Theorem calculatedTargets_holds_the_inferred_projects (env : Collaborators)
    (targetsCache : gmap Hash ProjectTargets) (files : list string)
    (options : option GradlePluginOptions) (context : CreateNodesContext)
    (s s' : State) (rs : list (result CreateNodesResult)) (hash : Hash) :
  createNodesForFiles env targetsCache files options context s = (rs, s') →
  hash ∈ dom (calculatedTargets s') ↔
  hash ∈ dom (calculatedTargets s) ∨
  ∃ i file root project,
    files !! i = Some file ∧
    rs !! i = Some (Ok (Projects root project)) ∧
    hashOf env file options context = Ok hash.
Proof. apply createNodesForFiles_dom. Qed.

Lemma calculatedTargets_holds_the_inferred_projects_witness :
  4%N ∈ dom (calculatedTargets Fixture.final) ↔
  4%N ∈ dom (calculatedTargets freshState) ∨
  ∃ i file root project,
    Fixture.files !! i = Some file ∧
    Fixture.results !! i = Some (Ok (Projects root project)) ∧
    hashOf Sample.env file None Sample.context = Ok 4%N.
Proof.
  apply (calculatedTargets_holds_the_inferred_projects Sample.env
           Sample.targetsCache Fixture.files None Sample.context freshState
           Fixture.final Fixture.results 4%N).
  vm_compute. reflexivity.
Defined.

(** X20. The files of a run can be processed in any order: when no two
    of them have the same hash, every order of the list leaves the
    same [calculatedTargets]. *)
Theorem calculatedTargets_independent_of_order (env : Collaborators)
    (targetsCache : gmap Hash ProjectTargets) (files1 files2 : list string)
    (options : option GradlePluginOptions) (context : CreateNodesContext)
    (s : State) :
  files1 ≡ₚ files2 →
  NoDup (omap (hashed env options context) files1) →
  calculatedTargets
    (createNodesForFiles env targetsCache files1 options context s).2
  = calculatedTargets
      (createNodesForFiles env targetsCache files2 options context s).2.
Proof.
  intros Hperm Hnodup. rewrite !createNodesForFiles_record.
  by apply foldl_record_Permutation.
Qed.

Lemma calculatedTargets_independent_of_order_witness :
  calculatedTargets
    (createNodesForFiles Sample.env Sample.targetsCache
       ["core/build.gradle"; "app/build.gradle"] None Sample.context
       freshState).2
  = calculatedTargets
      (createNodesForFiles Sample.env Sample.targetsCache
         ["app/build.gradle"; "core/build.gradle"] None Sample.context
         freshState).2.
Proof.
  apply (calculatedTargets_independent_of_order Sample.env Sample.targetsCache
           ["core/build.gradle"; "app/build.gradle"]
           ["app/build.gradle"; "core/build.gradle"]
           None Sample.context freshState).
  - apply perm_swap.
  - compute_done.
Defined.

(** X21. Writing [calculatedTargets] to the cache file drops what the
    run did not visit: starting from an empty [calculatedTargets], a
    hash that no file of the run has is missing from the file
    afterwards, whether or not the old cache had an entry for it. *)
Theorem flush_drops_unvisited_entries (env : Collaborators)
    (targetsCache : gmap Hash ProjectTargets) (files : list string)
    (options : option GradlePluginOptions) (context : CreateNodesContext)
    (s s' : State) (rs : list (result CreateNodesResult)) (hash : Hash)
    (oldFile : CacheFile) :
  calculatedTargets s = ∅ →
  createNodesForFiles env targetsCache files options context s = (rs, s') →
  (∀ file, file ∈ files → hashOf env file options context ≠ Ok hash) →
  loadTargetsCache (writeTargetsToCache (calculatedTargets s') oldFile) !! hash
  = None.
Proof.
  intros Hempty Hrun Hunvisited. simpl. unfold readTargetsCache.
  rewrite lookup_fmap, fmap_None.
  apply not_elem_of_dom.
  rewrite (createNodesForFiles_dom env targetsCache options context
             files s rs s' hash Hrun), Hempty, dom_empty_L.
  intros [Hin | (i & file & root & project & Hfile & _ & Hhash)].
  - by apply elem_of_empty in Hin.
  - apply (Hunvisited file); [| done]. by eapply list_elem_of_lookup_2.
Qed.

Lemma flush_drops_unvisited_entries_witness :
  Sample.targetsCache !! 3%N = Some Sample.cached ∧
  loadTargetsCache
    (writeTargetsToCache
       (calculatedTargets
          (createNodesForFiles Sample.env Sample.targetsCache
             ["core/build.gradle"] None Sample.context freshState).2)
       (Some Sample.targetsCache))
  !! 3%N = None.
Proof.
  split; [reflexivity |].
  apply (flush_drops_unvisited_entries Sample.env Sample.targetsCache
           ["core/build.gradle"] None Sample.context freshState
           (createNodesForFiles Sample.env Sample.targetsCache
              ["core/build.gradle"] None Sample.context freshState).2
           (createNodesForFiles Sample.env Sample.targetsCache
              ["core/build.gradle"] None Sample.context freshState).1
           3%N (Some Sample.targetsCache)).
  - reflexivity.
  - vm_compute. reflexivity.
  - intros file Hin. apply list_elem_of_singleton in Hin as ->.
    vm_compute. discriminate.
Defined.

(** ** The header of a target group *)

(** X23. The header shows a second pill exactly when [atomizer] is
    true; it reads [atomizer] and is grey, unless [connectedToCloud] is
    given as false, which makes it yellow. A header without
    [connectedToCloud] counts as connected. *)
Theorem atomizer_pill_follows_the_flags (number : Type)
    (toString : number → string) (isOne : number → bool)
    (props : GroupHeader.Props number) :
  let pills :=
    GroupHeader.pills
      (GroupHeader.TargetConfigurationGroupHeader toString isOne props) in
  (GroupHeader.atomizer props ≠ Some true → length pills = 1) ∧
  (GroupHeader.atomizer props = Some true →
   length pills = 2 ∧
   ∃ colour,
     pills !! 1 = Some {| GroupHeader.color := Some colour;
                          GroupHeader.text := "atomizer" |} ∧
     (colour = "yellow" ↔ GroupHeader.connectedToCloud props = Some false) ∧
     (colour = "grey" ↔ GroupHeader.connectedToCloud props ≠ Some false)).
Proof.
  intros pills. unfold pills, GroupHeader.pills,
    GroupHeader.TargetConfigurationGroupHeader. simpl.
  split.
  - by destruct (GroupHeader.atomizer props) as [[|] |].
  - intros ->. simpl. split; [done |].
    destruct (GroupHeader.connectedToCloud props) as [[|] |]; simpl;
      eexists; (split; [done |]); split; split; done.
Qed.

Lemma atomizer_pill_follows_the_flags_witness :
  (GroupHeader.atomizer Fixture.atomizerProps ≠ Some true →
   length Fixture.atomizerPills = 1) ∧
  (GroupHeader.atomizer Fixture.atomizerProps = Some true →
   length Fixture.atomizerPills = 2 ∧
   ∃ colour,
     Fixture.atomizerPills !! 1
     = Some {| GroupHeader.color := Some colour;
               GroupHeader.text := "atomizer" |} ∧
     (colour = "yellow"
      ↔ GroupHeader.connectedToCloud Fixture.atomizerProps = Some false) ∧
     (colour = "grey"
      ↔ GroupHeader.connectedToCloud Fixture.atomizerProps ≠ Some false)).
Proof.
  apply (atomizer_pill_follows_the_flags Fixture.count Fixture.toString
           Fixture.isOne Fixture.atomizerProps).
Defined.

(** The header of the group [Build] with its two targets. *)
Example group_header_sample :
  GroupHeader.TargetConfigurationGroupHeader Fixture.toString Fixture.isOne
    {| GroupHeader.targetGroupName := "Build";
       GroupHeader.targetsNumber := Fixture.Two;
       GroupHeader.className := None;
       GroupHeader.atomizer := None;
       GroupHeader.connectedToCloud := None |}
  = {| GroupHeader.headerClassName :=
         "flex items-center gap-2 px-4 py-2 text-lg capitalize ";
       GroupHeader.children :=
         [ GroupHeader.Text "Build"; GroupHeader.Text " ";
           GroupHeader.PillElement
             {| GroupHeader.color := None; GroupHeader.text := "2 targets" |} ] |}.
Proof. vm_compute. reflexivity. Qed.

(** The count reads [target] for one and [targets] for none and for
    two. *)
Example count_text_sample :
  GroupHeader.countText Fixture.toString Fixture.isOne
  <$> [Fixture.Zero; Fixture.One; Fixture.Two]
  = ["0 targets"; "1 target"; "2 targets"].
Proof. vm_compute. reflexivity. Qed.
